(** * daydoe: a polling SMA-crossover trading bot

    A shallow embedding of [daydoe.py]: the signal function
    [sma_crossover_signals], the two backend ticks [run_alpaca_bot] and
    [run_ccxt_bot], and the polling loop of [main], first over a
    complete configuration and then with the key reads of the loaded
    configuration, where keys may be missing.

    Modelling conventions.
    - A float is an exact rational ([Q]); NaN is [None].  A cell of a
      numeric column is therefore an [option Q].
    - A pandas DataFrame is a finite map from column names to columns, a
      column being the list of its cells in row order.  The frame is a
      mutable object in Python: functions that assign columns take the
      frame and give the updated frame back.
    - Calls to the broker, the exchange, [print] and [time.sleep] are
      recorded as events of a trace; what the outside world answers is an
      input of the tick.
    - Python exceptions are values of [exn]; a computation either returns
      or raises. *)

From Stdlib Require Import QArith Lia Ascii String.
From stdpp Require Import base option list strings gmap.

Local Open Scope string_scope.
Local Open Scope list_scope.

(** ** Exceptions and results *)

Inductive exn : Type :=
  | KeyError (key : string)
  | IndexError
  | APIError                  (* alpaca_trade_api.rest.APIError *)
  | Exception (msg : string). (* any other subclass of Exception *)

Inductive result (A : Type) : Type :=
  | Ok (a : A)
  | Raise (e : exn).
Arguments Ok {A} a.
Arguments Raise {A} e.

(** ** Cells, columns and frames *)

Abbreviation cell := (option Q).
Abbreviation NaN := (@None Q).
Abbreviation column := (list (option Q)).
Abbreviation DataFrame := (gmap string (list (option Q))).

(** [float > float] and [float < float]: false as soon as one side is
    NaN. *)
Definition cell_gt (a b : cell) : bool :=
  match a, b with
  | Some x, Some y => match (x ?= y)%Q with Gt => true | _ => false end
  | _, _ => false
  end.

Definition cell_lt (a b : cell) : bool :=
  match a, b with
  | Some x, Some y => match (x ?= y)%Q with Lt => true | _ => false end
  | _, _ => false
  end.

(** Sum of a window; NaN as soon as one observation is NaN. *)
Fixpoint sum_cells (win : column) : cell :=
  match win with
  | [] => Some 0%Q
  | x :: rest =>
      match x, sum_cells rest with
      | Some a, Some b => Some (a + b)%Q
      | _, _ => NaN
      end
  end.

Definition window_mean (win : column) : cell :=
  match sum_cells win with
  | Some s => Some (s / inject_Z (Z.of_nat (length win)))%Q
  | None => NaN
  end.

(** [Series.rolling(window=w).mean()] with the default [min_periods = w]:
    row [i] holds the mean of rows [i+1-w .. i] when those [w] rows exist
    and none of them is NaN, and NaN otherwise.  A window of 0 rows has
    no observation, so every row is NaN. *)
Definition rolling_mean_at (w : nat) (xs : column) (i : nat) : cell :=
  if (w =? 0)%nat || (i + 1 <? w)%nat then NaN
  else window_mean (take w (drop (i + 1 - w) xs)).

Definition rolling_mean (w : nat) (xs : column) : column :=
  map (rolling_mean_at w xs) (seq 0 (length xs)).

(** [Series.isna().any()] *)
Definition isna_any (xs : column) : bool :=
  existsb (fun c => match c with None => true | Some _ => false end) xs.

(** [Series.iloc[-1]] *)
Definition iloc_last (xs : column) : result cell :=
  match last xs with
  | Some c => Ok c
  | None => Raise IndexError
  end.

(** ** Computations on a frame: state passing with exceptions *)

Definition FrameM (A : Type) : Type := DataFrame -> DataFrame * result A.

Definition fret {A} (a : A) : FrameM A := fun df => (df, Ok a).

Definition fbind {A B} (m : FrameM A) (k : A -> FrameM B) : FrameM B :=
  fun df =>
    match m df with
    | (df', Ok a) => k a df'
    | (df', Raise e) => (df', Raise e)
    end.

#[global] Instance FrameM_ret : MRet FrameM := @fret.
#[global] Instance FrameM_bind : MBind FrameM := fun A B k m => fbind m k.

(** [df[name]] *)
Definition getitem (name : string) : FrameM column :=
  fun df =>
    match df !! name with
    | Some col => (df, Ok col)
    | None => (df, Raise (KeyError name))
    end.

(** [df[name] = col] *)
Definition setitem (name : string) (col : column) : FrameM unit :=
  fun df => (<[name := col]> df, Ok tt).

Definition flift {A} (r : result A) : FrameM A := fun df => (df, r).

(** ** Simple SMA strategy *)

Inductive Signal : Type := buy | sell | hold.

Definition Signal_eqb (a b : Signal) : bool :=
  match a, b with
  | buy, buy | sell, sell | hold, hold => true
  | _, _ => false
  end.

Definition sma_crossover_signals (short_window long_window : nat)
  : FrameM Signal :=
  close ← getitem "close";
  setitem "SMA_short" (rolling_mean short_window close);;
  close ← getitem "close";
  setitem "SMA_long" (rolling_mean long_window close);;
  (* If we don't have enough data points for the rolling window, return
     'hold' *)
  sma_short ← getitem "SMA_short";
  short_na ← mret (isna_any sma_short);
  any_na ← (if short_na : bool then mret true
            else sma_long ← getitem "SMA_long"; mret (isna_any sma_long));
  if any_na : bool then mret hold
  else
    sma_short ← getitem "SMA_short";
    short_sma_latest ← flift (iloc_last sma_short);
    sma_long ← getitem "SMA_long";
    long_sma_latest ← flift (iloc_last sma_long);
    if cell_gt short_sma_latest long_sma_latest then mret buy
    else if cell_lt short_sma_latest long_sma_latest then mret sell
    else mret hold.

(** A frame with only a ['close'] column. *)
Definition frame_of_closes (closes : list Q) : DataFrame :=
  {[ "close" := map Some closes ]}.

(** ** Events, traces and ticks *)

Inductive side : Type := SideBuy | SideSell.

Inductive sizing : Type :=
  | Notional (amount : Q)   (* currency-denominated size *)
  | Quantity (qty : Q).     (* unit-quantity size *)

(** A market order as handed to the backend. *)
Record order : Type := MkOrder {
  order_symbol : string;
  order_side : side;
  order_size : sizing
}.

Inductive log_line : Type :=
  | NoDataAlpaca                                   (* line 82 *)
  | NoDataExchange                                 (* line 157 *)
  | SignalFor (symbol : string) (s : Signal)       (* line 91 *)
  | SignalForOn (symbol exch : string) (s : Signal) (* line 166 *)
  | PlacingBuy (symbol : string) (size : Q)        (* lines 103, 175 *)
  | PlacingSell (symbol : string) (size : Q)       (* lines 115, 184 *)
  | Receipt (r : string)                           (* print(order) *)
  | ErrorPlacingBuy (e : exn)                      (* line 180 *)
  | ErrorPlacingSell (e : exn)                     (* line 189 *)
  | UnknownBroker (b : string)                     (* line 206 *)
  | MainLoopError (e : exn).                       (* line 209 *)

Inductive event : Type :=
  | Print (l : log_line)
  | GetBars (symbol : string)                      (* api.get_bars *)
  | GetPosition (symbol : string)                  (* api.get_position *)
  | SubmitOrder (o : order)                        (* api.submit_order *)
  | GetExchange (name : string)                    (* getattr(ccxt, name) *)
  | FetchOhlcv (symbol timeframe : string)         (* exchange.fetch_ohlcv *)
  | FetchBalance                                   (* exchange.fetch_balance *)
  | CreateMarketOrder (o : order)    (* exchange.create_market_*_order *)
  | Sleep (secs : nat).                            (* time.sleep *)

(** A tick computation: the events it caused, and how it ended. *)
Definition Tick (A : Type) : Type := (list event * result A)%type.

Definition tret {A} (a : A) : Tick A := ([], Ok a).

Definition tbind {A B} (m : Tick A) (k : A -> Tick B) : Tick B :=
  match m with
  | (tr, Ok a) => let '(tr', r) := k a in (tr ++ tr', r)
  | (tr, Raise e) => (tr, Raise e)
  end.

#[global] Instance Tick_ret : MRet Tick := @tret.
#[global] Instance Tick_bind : MBind Tick := fun A B k m => tbind m k.

(** An effect with no answer, such as [print]. *)
Definition emit (ev : event) : Tick unit := ([ev], Ok tt).

(** A call to the outside world together with its answer. *)
Definition call {A} (ev : event) (answer : result A) : Tick A := ([ev], answer).

Definition tlift {A} (r : result A) : Tick A := ([], r).

(** [try: m except <those e with handler e = Some h>: h] *)
Definition try_except {A} (m : Tick A) (handler : exn -> option (Tick A))
  : Tick A :=
  match m with
  | (tr, Ok a) => (tr, Ok a)
  | (tr, Raise e) =>
      match handler e with
      | Some h => let '(tr', r) := h in (tr ++ tr', r)
      | None => (tr, Raise e)
      end
  end.

Definition trace {A} (m : Tick A) : list event := fst m.
Definition outcome {A} (m : Tick A) : result A := snd m.

(** ** Configuration (the keys the code reads from config.yaml) *)

Record AlpacaConfig : Type := {
  alpaca_symbol : string;
  notional : Q
}.

Record CcxtConfig : Type := {
  exchange : string;
  ccxt_symbol : string;
  trade_amount : Q
}.

Record Config : Type := {
  broker : string;
  short_window : nat;
  long_window : nat;
  loop_interval_sec : nat;
  time_interval : string;
  alpaca : AlpacaConfig;
  ccxt : CcxtConfig
}.

(** ** Comparisons of quantities *)

Definition Qltb (a b : Q) : bool :=
  match (a ?= b)%Q with Lt => true | _ => false end.

Definition Qgtb (a b : Q) : bool :=
  match (a ?= b)%Q with Gt => true | _ => false end.

(** The literal [1e-8] of lines 174 and 183. *)
Definition eps : Q := 1 # 100000000.

(** [DataFrame.empty]: no column, or no row. *)
Definition df_empty (df : DataFrame) : bool :=
  bool_decide (map_Forall (fun _ (col : column) => col = []) df).

(** ** Alpaca *)

Record Bar : Type := {
  bar_t : Q; bar_o : Q; bar_h : Q; bar_l : Q; bar_c : Q; bar_v : Q
}.

(** What the broker answers during one tick. *)
Record alpaca_world : Type := {
  get_bars : result (list Bar);
  get_position : result Q;              (* position.qty *)
  submit_order : order -> result string
}.

(** [pd.DataFrame([{...} for bar in barset])]: six columns, and no
    column at all when the bar set is empty. *)
Definition alpaca_frame (barset : list Bar) : DataFrame :=
  match barset with
  | [] => ∅
  | _ =>
      <["timestamp" := map (fun b => Some (bar_t b)) barset]>
      (<["open" := map (fun b => Some (bar_o b)) barset]>
      (<["high" := map (fun b => Some (bar_h b)) barset]>
      (<["low" := map (fun b => Some (bar_l b)) barset]>
      (<["close" := map (fun b => Some (bar_c b)) barset]>
      (<["volume" := map (fun b => Some (bar_v b)) barset]> ∅)))))
  end.

(** Lines 93-99: the current position, 0 when the broker reports an
    APIError. *)
Definition alpaca_current_qty (w : alpaca_world) (symbol : string) : Tick Q :=
  try_except (call (GetPosition symbol) (get_position w))
    (fun e => match e with APIError => Some (mret 0%Q) | _ => None end).

(** Lines 101-123. *)
Definition alpaca_reconcile (w : alpaca_world) (symbol : string)
    (notional : Q) (signal : Signal) (current_qty : Q) : Tick unit :=
  if Signal_eqb signal buy && Qeq_bool current_qty 0 then
    emit (Print (PlacingBuy symbol notional));;
    let o := MkOrder symbol SideBuy (Notional notional) in
    receipt ← call (SubmitOrder o) (submit_order w o);
    emit (Print (Receipt receipt))
  else if Signal_eqb signal sell && Qgtb current_qty 0 then
    emit (Print (PlacingSell symbol current_qty));;
    let o := MkOrder symbol SideSell (Quantity current_qty) in
    receipt ← call (SubmitOrder o) (submit_order w o);
    emit (Print (Receipt receipt))
  else mret tt.

Definition run_alpaca_bot (config : Config) (w : alpaca_world) : Tick unit :=
  let symbol := alpaca_symbol (alpaca config) in
  barset ← call (GetBars symbol) (get_bars w);
  let df := alpaca_frame barset in
  if df_empty df then emit (Print NoDataAlpaca)
  else
    let '(df, r) :=
      sma_crossover_signals (short_window config) (long_window config) df in
    signal ← tlift r;
    emit (Print (SignalFor symbol signal));;
    current_qty ← alpaca_current_qty w symbol;
    alpaca_reconcile w symbol (notional (alpaca config)) signal current_qty.

(** ** CCXT *)

Record ohlcv_row : Type := {
  row_t : cell; row_o : cell; row_h : cell;
  row_l : cell; row_c : cell; row_v : cell
}.

Record ccxt_world : Type := {
  get_exchange : result unit;                     (* getattr(ccxt, name) *)
  fetch_ohlcv : result (list ohlcv_row);
  fetch_balance : result (gmap string (gmap string Q));
  create_market_order : order -> result string
}.

(** [pd.DataFrame(ohlcv, columns=[...])] followed by the conversion of
    the timestamp column (line 154), which only changes how a timestamp
    is represented. *)
Definition ccxt_frame (ohlcv : list ohlcv_row) : DataFrame :=
  <["timestamp" := map row_t ohlcv]>
  (<["timestamp" := map row_t ohlcv]>
  (<["open" := map row_o ohlcv]>
  (<["high" := map row_h ohlcv]>
  (<["low" := map row_l ohlcv]>
  (<["close" := map row_c ohlcv]>
  (<["volume" := map row_v ohlcv]> ∅)))))).

(** [symbol.split('/')[0]] *)
Fixpoint split_head (s : string) : string :=
  match s with
  | EmptyString => EmptyString
  | String c rest =>
      if Ascii.eqb c "/"%char then EmptyString else String c (split_head rest)
  end.

(** [balances.get(base_symbol, {}).get('free', 0)] *)
Definition base_free_of (balances : gmap string (gmap string Q))
    (base_symbol : string) : Q :=
  default 0%Q (default ∅ (balances !! base_symbol) !! "free").

(** Lines 173-189. *)
Definition ccxt_reconcile (w : ccxt_world) (symbol : string)
    (trade_amount : Q) (signal : Signal) (base_free : Q) : Tick unit :=
  if Signal_eqb signal buy && Qltb base_free eps then
    emit (Print (PlacingBuy symbol trade_amount));;
    try_except
      (let o := MkOrder symbol SideBuy (Quantity trade_amount) in
       receipt ← call (CreateMarketOrder o) (create_market_order w o);
       emit (Print (Receipt receipt)))
      (fun e => Some (emit (Print (ErrorPlacingBuy e))))
  else if Signal_eqb signal sell && Qgtb base_free eps then
    emit (Print (PlacingSell symbol base_free));;
    try_except
      (let o := MkOrder symbol SideSell (Quantity base_free) in
       receipt ← call (CreateMarketOrder o) (create_market_order w o);
       emit (Print (Receipt receipt)))
      (fun e => Some (emit (Print (ErrorPlacingSell e))))
  else mret tt.

Definition run_ccxt_bot (config : Config) (w : ccxt_world) : Tick unit :=
  let exchange_name := exchange (ccxt config) in
  let symbol := ccxt_symbol (ccxt config) in
  let timeframe := time_interval config in
  call (GetExchange exchange_name) (get_exchange w);;
  ohlcv ← call (FetchOhlcv symbol timeframe) (fetch_ohlcv w);
  let df := ccxt_frame ohlcv in
  if df_empty df then emit (Print NoDataExchange)
  else
    let '(df, r) :=
      sma_crossover_signals (short_window config) (long_window config) df in
    signal ← tlift r;
    emit (Print (SignalForOn symbol exchange_name signal));;
    balances ← call FetchBalance (fetch_balance w);
    let base_symbol := split_head symbol in
    let base_free := base_free_of balances base_symbol in
    ccxt_reconcile w symbol (trade_amount (ccxt config)) signal base_free.

(** ** Main *)

(** [str.lower], on ASCII letters. *)
Definition lower_ascii (c : ascii) : ascii :=
  let n := nat_of_ascii c in
  if (65 <=? n)%nat && (n <=? 90)%nat then ascii_of_nat (n + 32) else c.

Fixpoint lower (s : string) : string :=
  match s with
  | EmptyString => EmptyString
  | String c rest => String (lower_ascii c) (lower rest)
  end.

(** What the two backends answer during one iteration of the loop. *)
Record tick_world : Type := {
  alpaca_w : alpaca_world;
  ccxt_w : ccxt_world
}.

(** The statements inside [try:] (lines 201-207); the result tells
    whether [break] was reached. *)
Definition loop_body (config : Config) (broker : string) (w : tick_world)
  : Tick bool :=
  if String.eqb broker "alpaca" then
    run_alpaca_bot config (alpaca_w w);; mret false
  else if String.eqb broker "ccxt" then
    run_ccxt_bot config (ccxt_w w);; mret false
  else
    emit (Print (UnknownBroker broker));; mret true.

(** Lines 200-209: [except Exception as e] handles every exception. *)
Definition guarded_body (config : Config) (broker : string) (w : tick_world)
  : Tick bool :=
  try_except (loop_body config broker w)
    (fun e => Some (emit (Print (MainLoopError e));; mret false)).

Inductive loop_state : Type :=
  | Running              (* the loop is still iterating *)
  | Stopped              (* [break] left the loop *)
  | Crashed (e : exn).   (* an exception left the loop *)

(** [while True] run for [fuel] iterations; [ws i] is what the world
    answers during iteration [i]. *)
Fixpoint main_loop (fuel : nat) (config : Config) (broker : string)
    (ws : nat -> tick_world) (i : nat) : list event * loop_state :=
  match fuel with
  | O => ([], Running)
  | S fuel' =>
      match guarded_body config broker (ws i) with
      | (tr, Raise e) => (tr, Crashed e)
      | (tr, Ok true) => (tr, Stopped)
      | (tr, Ok false) =>
          let '(tr', st) := main_loop fuel' config broker ws (S i) in
          (tr ++ Sleep (loop_interval_sec config) :: tr', st)
      end
  end.

Definition main (fuel : nat) (config : Config) (ws : nat -> tick_world)
  : list event * loop_state :=
  main_loop fuel config (lower (broker config)) ws 0.

(** ** Auxiliary definitions used by the statements *)

(** What [sma_crossover_signals] answers, as a function of the two
    rolling means. *)
Definition sma_decision (sma_short sma_long : column) : result Signal :=
  if isna_any sma_short || isna_any sma_long then Ok hold
  else
    match iloc_last sma_short with
    | Raise e => Raise e
    | Ok short_sma_latest =>
        match iloc_last sma_long with
        | Raise e => Raise e
        | Ok long_sma_latest =>
            if cell_gt short_sma_latest long_sma_latest then Ok buy
            else if cell_lt short_sma_latest long_sma_latest then Ok sell
            else Ok hold
        end
    end.

(** The orders handed to the backend during a computation. *)
Definition orders_of (tr : list event) : list order :=
  omap (fun ev => match ev with
                  | SubmitOrder o | CreateMarketOrder o => Some o
                  | _ => None
                  end) tr.

(** The crossover rule as the specification words it: the unweighted
    mean of the trailing [w] closing prices ending at the latest bar,
    undefined when the series has fewer than [w] bars. *)
Definition spec_trailing_average (w : nat) (closes : list Q) : option Q :=
  if (w =? 0)%nat || (length closes <? w)%nat then None
  else Some (fold_right Qplus 0 (drop (length closes - w) closes)
             / inject_Z (Z.of_nat w))%Q.

(** Decision rule of the specification: short above long is Buy, short
    below long is Sell, equality or insufficient data is Hold. *)
Definition spec_signal (short_window long_window : nat) (closes : list Q)
  : Signal :=
  match spec_trailing_average short_window closes,
        spec_trailing_average long_window closes with
  | Some s, Some l => if Qgtb s l then buy else if Qltb s l then sell else hold
  | _, _ => hold
  end.

(** Sample answers of the outside world, for the concrete checks. *)
Definition sample_alpaca_world : alpaca_world :=
  {| get_bars := Ok [];
     get_position := Raise APIError;
     submit_order := fun _ => Ok "accepted" |}.

Definition sample_ccxt_world : ccxt_world :=
  {| get_exchange := Ok tt;
     fetch_ohlcv := Ok [];
     fetch_balance := Ok ∅;
     create_market_order := fun _ => Ok "filled" |}.

Definition sample_config : Config :=
  {| broker := "Alpaca";
     short_window := 5;
     long_window := 20;
     loop_interval_sec := 60;
     time_interval := "15m";
     alpaca := {| alpaca_symbol := "AAPL"; notional := 100 |};
     ccxt := {| exchange := "binance"; ccxt_symbol := "BTC/USDT";
                trade_amount := 1 # 1000 |} |}.

(** Dust: a positive quantity below [1e-8]. *)
Definition dust : Q := 1 # 1000000000.

(** A broker whose data call times out. *)
Definition failing_alpaca_world : alpaca_world :=
  {| get_bars := Raise (Exception "timeout");
     get_position := Raise APIError;
     submit_order := fun _ => Raise (Exception "rejected") |}.

(** Sixty closes rising steadily: 100, 101, ..., 159. *)
Definition rising_closes : list Q :=
  map (fun i => inject_Z (100 + Z.of_nat i)) (seq 0 60).

(** ** The configuration as loaded: keys may be missing *)

(** [load_config] hands the parsed YAML document over as nested dicts,
    and the code reads each key with [config[...]] at the point where it
    needs it.  A key is either present, with a value of the type the code
    expects, or absent; reading an absent key raises KeyError.  The client
    constructors [tradeapi.REST(...)] and [klass({...})] make no call to
    the backend and are taken to succeed. *)
Record RawAlpaca : Type := {
  raw_alpaca_api_key : option string;
  raw_alpaca_api_secret : option string;
  raw_alpaca_base_url : option string;
  raw_alpaca_symbol : option string;
  raw_notional : option Q
}.

Record RawCcxt : Type := {
  raw_exchange : option string;
  raw_ccxt_api_key : option string;
  raw_ccxt_api_secret : option string;
  raw_ccxt_symbol : option string;
  raw_trade_amount : option Q
}.

Record RawConfig : Type := {
  raw_broker : option string;
  raw_short_window : option nat;
  raw_long_window : option nat;
  raw_loop_interval_sec : option nat;
  raw_time_interval : option string;
  raw_alpaca : option RawAlpaca;
  raw_ccxt : option RawCcxt
}.

(** [d[key]] on a dict. *)
Definition getkey {A} (key : string) (v : option A) : Tick A :=
  match v with
  | Some a => ([], Ok a)
  | None => ([], Raise (KeyError key))
  end.

(** [run_alpaca_bot] with its key reads (lines 53-58 and 88-89). *)
Definition run_alpaca_bot_raw (config : RawConfig) (w : alpaca_world)
  : Tick unit :=
  alpaca_config ← getkey "alpaca" (raw_alpaca config);
  api_key ← getkey "api_key" (raw_alpaca_api_key alpaca_config);
  api_secret ← getkey "api_secret" (raw_alpaca_api_secret alpaca_config);
  base_url ← getkey "base_url" (raw_alpaca_base_url alpaca_config);
  symbol ← getkey "symbol" (raw_alpaca_symbol alpaca_config);
  notional ← getkey "notional" (raw_notional alpaca_config);
  barset ← call (GetBars symbol) (get_bars w);
  let df := alpaca_frame barset in
  if df_empty df then emit (Print NoDataAlpaca)
  else
    short_window ← getkey "short_window" (raw_short_window config);
    long_window ← getkey "long_window" (raw_long_window config);
    let '(df, r) := sma_crossover_signals short_window long_window df in
    signal ← tlift r;
    emit (Print (SignalFor symbol signal));;
    current_qty ← alpaca_current_qty w symbol;
    alpaca_reconcile w symbol notional signal current_qty.

(** [run_ccxt_bot] with its key reads (lines 134-140 and 163-164). *)
Definition run_ccxt_bot_raw (config : RawConfig) (w : ccxt_world)
  : Tick unit :=
  ccxt_config ← getkey "ccxt" (raw_ccxt config);
  exchange_name ← getkey "exchange" (raw_exchange ccxt_config);
  api_key ← getkey "api_key" (raw_ccxt_api_key ccxt_config);
  api_secret ← getkey "api_secret" (raw_ccxt_api_secret ccxt_config);
  symbol ← getkey "symbol" (raw_ccxt_symbol ccxt_config);
  trade_amount ← getkey "trade_amount" (raw_trade_amount ccxt_config);
  timeframe ← getkey "time_interval" (raw_time_interval config);
  call (GetExchange exchange_name) (get_exchange w);;
  ohlcv ← call (FetchOhlcv symbol timeframe) (fetch_ohlcv w);
  let df := ccxt_frame ohlcv in
  if df_empty df then emit (Print NoDataExchange)
  else
    short_window ← getkey "short_window" (raw_short_window config);
    long_window ← getkey "long_window" (raw_long_window config);
    let '(df, r) := sma_crossover_signals short_window long_window df in
    signal ← tlift r;
    emit (Print (SignalForOn symbol exchange_name signal));;
    balances ← call FetchBalance (fetch_balance w);
    let base_symbol := split_head symbol in
    let base_free := base_free_of balances base_symbol in
    ccxt_reconcile w symbol trade_amount signal base_free.

Definition loop_body_raw (config : RawConfig) (broker : string)
    (w : tick_world) : Tick bool :=
  if String.eqb broker "alpaca" then
    run_alpaca_bot_raw config (alpaca_w w);; mret false
  else if String.eqb broker "ccxt" then
    run_ccxt_bot_raw config (ccxt_w w);; mret false
  else
    emit (Print (UnknownBroker broker));; mret true.

Definition guarded_body_raw (config : RawConfig) (broker : string)
    (w : tick_world) : Tick bool :=
  try_except (loop_body_raw config broker w)
    (fun e => Some (emit (Print (MainLoopError e));; mret false)).

(** The loop of [main]; the interval is read after the [try] statement
    (line 212), where nothing catches a KeyError. *)
Fixpoint main_loop_raw (fuel : nat) (config : RawConfig) (broker : string)
    (ws : nat -> tick_world) (i : nat) : list event * loop_state :=
  match fuel with
  | O => ([], Running)
  | S fuel' =>
      match guarded_body_raw config broker (ws i) with
      | (tr, Raise e) => (tr, Crashed e)
      | (tr, Ok true) => (tr, Stopped)
      | (tr, Ok false) =>
          match raw_loop_interval_sec config with
          | None => (tr, Crashed (KeyError "loop_interval_sec"))
          | Some secs =>
              let '(tr', st) := main_loop_raw fuel' config broker ws (S i) in
              (tr ++ Sleep secs :: tr', st)
          end
      end
  end.

(** [main], from the outcome of [load_config('config.yaml')] on. *)
Definition main_raw (fuel : nat) (loaded : result RawConfig)
    (ws : nat -> tick_world) : list event * loop_state :=
  match loaded with
  | Raise e => ([], Crashed e)
  | Ok config =>
      match raw_broker config with
      | None => ([], Crashed (KeyError "broker"))
      | Some b => main_loop_raw fuel config (lower b) ws 0
      end
  end.

(** The complete configuration a loaded document stands for, when no
    key is missing. *)
Definition complete_alpaca (a : RawAlpaca) : option AlpacaConfig :=
  _ ← raw_alpaca_api_key a;
  _ ← raw_alpaca_api_secret a;
  _ ← raw_alpaca_base_url a;
  symbol ← raw_alpaca_symbol a;
  n ← raw_notional a;
  Some {| alpaca_symbol := symbol; notional := n |}.

Definition complete_ccxt (c : RawCcxt) : option CcxtConfig :=
  name ← raw_exchange c;
  _ ← raw_ccxt_api_key c;
  _ ← raw_ccxt_api_secret c;
  symbol ← raw_ccxt_symbol c;
  amount ← raw_trade_amount c;
  Some {| exchange := name; ccxt_symbol := symbol; trade_amount := amount |}.

Definition complete_config (raw : RawConfig) : option Config :=
  b ← raw_broker raw;
  sw ← raw_short_window raw;
  lw ← raw_long_window raw;
  secs ← raw_loop_interval_sec raw;
  tf ← raw_time_interval raw;
  a ← raw_alpaca raw ≫= complete_alpaca;
  c ← raw_ccxt raw ≫= complete_ccxt;
  Some {| broker := b; short_window := sw; long_window := lw;
          loop_interval_sec := secs; time_interval := tf;
          alpaca := a; ccxt := c |}.

(** ** Shapes of frames and traces *)

(** Every column of the frame has [n] rows. *)
Definition rectangular (n : nat) (df : DataFrame) : Prop :=
  map_Forall (fun _ (col : column) => length col = n) df.



(** Does the string contain the character? *)
Fixpoint contains_char (c : ascii) (s : string) : bool :=
  match s with
  | EmptyString => false
  | String c' rest => Ascii.eqb c' c || contains_char c rest
  end.

(** [str.upper] on one ASCII letter. *)
Definition upper_ascii (c : ascii) : ascii :=
  let n := nat_of_ascii c in
  if (97 <=? n)%nat && (n <=? 122)%nat then ascii_of_nat (n - 32) else c.

(** The string [s] with the letters at the positions marked in [caps]
    written in upper case: one way of capitalising [s]. *)
Fixpoint recase (caps : list bool) (s : string) {struct s} : string :=
  match s with
  | EmptyString => EmptyString
  | String c rest =>
      match caps with
      | [] => s
      | b :: caps' =>
          String (if b : bool then upper_ascii c else c) (recase caps' rest)
      end
  end.



(** * Properties *)

Example sma_demo :
  snd (sma_crossover_signals 1 2 (frame_of_closes [1; 2; 3]%Q)) = Ok hold.
Proof. vm_compute. reflexivity. Qed.


(** ** The signal function *)

Lemma sma_crossover_signals_close (df : DataFrame) (close : column) sw lw :
  df !! "close" = Some close ->
  sma_crossover_signals sw lw df =
    (<["SMA_long" := rolling_mean lw close]>
       (<["SMA_short" := rolling_mean sw close]> df),
     sma_decision (rolling_mean sw close) (rolling_mean lw close)).
Proof.
  intros Hclose.
  unfold sma_crossover_signals, sma_decision, mbind, mret,
    FrameM_bind, FrameM_ret, fbind, fret, getitem, setitem, flift.
  rewrite Hclose.
  rewrite lookup_insert_ne by done. rewrite Hclose.
  assert (Hs : forall l : column,
    <["SMA_long" := l]> (<["SMA_short" := rolling_mean sw close]> df)
      !! "SMA_short" = Some (rolling_mean sw close)).
  { intros l. rewrite lookup_insert_ne by done. apply lookup_insert_eq. }
  rewrite Hs.
  destruct (isna_any (rolling_mean sw close)); simpl; [done|].
  rewrite lookup_insert_eq.
  destruct (isna_any (rolling_mean lw close)); simpl; [done|].
  rewrite Hs.
  destruct (iloc_last (rolling_mean sw close)); simpl; [|done].
  rewrite lookup_insert_eq.
  destruct (iloc_last (rolling_mean lw close)); simpl; [|done].
  destruct (cell_gt a a0); [done|]. destruct (cell_lt a a0); done.
Qed.

Lemma sma_crossover_signals_no_close (df : DataFrame) sw lw :
  df !! "close" = None ->
  sma_crossover_signals sw lw df = (df, Raise (KeyError "close")).
Proof.
  intros Hclose.
  unfold sma_crossover_signals, mbind, FrameM_bind, fbind, getitem.
  by rewrite Hclose.
Qed.

Lemma length_rolling_mean w (xs : column) :
  length (rolling_mean w xs) = length xs.
Proof. unfold rolling_mean. by rewrite length_map, length_seq. Qed.

Lemma rolling_mean_lookup w (xs : column) i :
  (i < length xs)%nat ->
  rolling_mean w xs !! i = Some (rolling_mean_at w xs i).
Proof.
  intros Hi. unfold rolling_mean.
  rewrite list_lookup_fmap, lookup_seq_lt by done. done.
Qed.

(** The first [w - 1] rows of a rolling mean are NaN. *)
Lemma rolling_mean_head_nan w (xs : column) i :
  (i + 1 < w)%nat -> (i < length xs)%nat ->
  rolling_mean w xs !! i = Some NaN.
Proof.
  intros Hw Hi. rewrite rolling_mean_lookup by done.
  unfold rolling_mean_at.
  destruct (w =? 0)%nat; [done|].
  apply Nat.ltb_lt in Hw. by rewrite Hw.
Qed.

Lemma isna_any_lookup (xs : column) i :
  xs !! i = Some NaN -> isna_any xs = true.
Proof.
  intros Hi. unfold isna_any. apply existsb_exists.
  exists NaN. split; [|done].
  apply list_elem_of_In. by eapply list_elem_of_lookup_2.
Qed.

(** A window other than 1 leaves a NaN in the first row. *)
Lemma isna_any_rolling_mean w (xs : column) :
  xs <> [] -> w <> 1%nat -> isna_any (rolling_mean w xs) = true.
Proof.
  intros Hxs Hw. apply (isna_any_lookup _ 0).
  destruct xs as [|x xs]; [done|].
  rewrite rolling_mean_lookup by (simpl; lia).
  unfold rolling_mean_at.
  destruct w as [|[|w]]; done.
Qed.

Lemma cell_gt_irrefl (a : cell) : cell_gt a a = false.
Proof.
  destruct a as [x|]; [|done]. simpl.
  assert (H : (x ?= x)%Q = Eq) by (apply Qeq_alt; reflexivity).
  by rewrite H.
Qed.

Lemma cell_lt_irrefl (a : cell) : cell_lt a a = false.
Proof.
  destruct a as [x|]; [|done]. simpl.
  assert (H : (x ?= x)%Q = Eq) by (apply Qeq_alt; reflexivity).
  by rewrite H.
Qed.

Lemma iloc_last_nonempty (xs : column) :
  xs <> [] -> exists c, iloc_last xs = Ok c.
Proof.
  intros Hxs. unfold iloc_last.
  destruct (last xs) as [c|] eqn:Hl; [by exists c|].
  by apply last_None in Hl.
Qed.

Lemma rolling_mean_nonempty w (xs : column) :
  xs <> [] -> rolling_mean w xs <> [].
Proof.
  intros Hxs Hr. apply Hxs, length_zero_iff_nil.
  by rewrite <- (length_rolling_mean w), Hr.
Qed.

(** On a series with at least one row the decision is always 'hold':
    a window other than 1 trips the NaN guard, and two windows of 1 give
    the same column twice. *)
Lemma sma_decision_hold sw lw (close : column) :
  close <> [] ->
  sma_decision (rolling_mean sw close) (rolling_mean lw close) = Ok hold.
Proof.
  intros Hne. unfold sma_decision.
  destruct (decide (sw = 1%nat)) as [->|Hsw].
  2:{ by rewrite (isna_any_rolling_mean sw close). }
  destruct (decide (lw = 1%nat)) as [->|Hlw].
  2:{ rewrite (isna_any_rolling_mean lw close) by done.
      by rewrite orb_true_r. }
  destruct (isna_any (rolling_mean 1 close)); [done|]. simpl.
  destruct (iloc_last_nonempty (rolling_mean 1 close)) as [c ->].
  { by apply rolling_mean_nonempty. }
  by rewrite cell_gt_irrefl, cell_lt_irrefl.
Qed.

Lemma sma_crossover_signals_hold (df : DataFrame) (close : column) sw lw :
  df !! "close" = Some close -> close <> [] ->
  snd (sma_crossover_signals sw lw df) = Ok hold.
Proof.
  intros Hclose Hne.
  rewrite (sma_crossover_signals_close df close) by done.
  by apply sma_decision_hold.
Qed.

(** ** Comparisons *)

Lemma Qltb_lt a b : Qltb a b = true <-> (a < b)%Q.
Proof.
  unfold Qltb. rewrite Qlt_alt.
  destruct (a ?= b)%Q; split; congruence.
Qed.

Lemma Qgtb_gt a b : Qgtb a b = true <-> (b < a)%Q.
Proof.
  unfold Qgtb. rewrite Qgt_alt.
  destruct (a ?= b)%Q; split; congruence.
Qed.

Lemma Qltb_ge a b : Qltb a b = false <-> (b <= a)%Q.
Proof.
  rewrite <- not_true_iff_false, Qltb_lt. split.
  - apply Qnot_lt_le.
  - apply Qle_not_lt.
Qed.

Lemma Qgtb_le a b : Qgtb a b = false <-> (a <= b)%Q.
Proof.
  rewrite <- not_true_iff_false, Qgtb_gt. split.
  - apply Qnot_lt_le.
  - apply Qle_not_lt.
Qed.

Lemma Qeq_bool_false_lt q : (0 < q)%Q -> Qeq_bool q 0 = false.
Proof.
  intros Hq. apply not_true_iff_false. intros Heq.
  apply Qeq_bool_iff in Heq. rewrite Heq in Hq.
  by apply Qlt_irrefl in Hq.
Qed.

Lemma eps_pos : (0 < eps)%Q.
Proof. reflexivity. Qed.

(** ** The reconciliation steps *)

Create HintDb tick discriminated.
#[local] Hint Unfold mbind mret Tick_bind Tick_ret tbind tret
  try_except emit call tlift : tick.

(** Runs a reconciliation step whose guard has been decided. *)
Ltac run_step w :=
  autounfold with tick;
  first [ by destruct (submit_order w _)
        | by destruct (create_market_order w _) ].

Lemma orders_of_app tr1 tr2 :
  orders_of (tr1 ++ tr2) = orders_of tr1 ++ orders_of tr2.
Proof. apply omap_app. Qed.

Lemma alpaca_reconcile_hold w symbol n q :
  alpaca_reconcile w symbol n hold q = ([], Ok tt).
Proof. reflexivity. Qed.

Lemma ccxt_reconcile_hold w symbol amount q :
  ccxt_reconcile w symbol amount hold q = ([], Ok tt).
Proof. reflexivity. Qed.

Lemma alpaca_reconcile_buy_flat w symbol n q :
  (q == 0)%Q ->
  orders_of (trace (alpaca_reconcile w symbol n buy q))
  = [MkOrder symbol SideBuy (Notional n)].
Proof.
  intros Hq. apply Qeq_bool_iff in Hq.
  unfold alpaca_reconcile. simpl. rewrite Hq.
  run_step w.
Qed.

Lemma alpaca_reconcile_buy_long w symbol n q :
  (0 < q)%Q ->
  alpaca_reconcile w symbol n buy q = ([], Ok tt).
Proof.
  intros Hq. unfold alpaca_reconcile. simpl.
  by rewrite Qeq_bool_false_lt.
Qed.

Lemma alpaca_reconcile_sell_long w symbol n q :
  (0 < q)%Q ->
  orders_of (trace (alpaca_reconcile w symbol n sell q))
  = [MkOrder symbol SideSell (Quantity q)].
Proof.
  intros Hq. apply Qgtb_gt in Hq.
  unfold alpaca_reconcile. simpl. rewrite Hq.
  run_step w.
Qed.

Lemma alpaca_reconcile_sell_flat w symbol n q :
  (q <= 0)%Q ->
  alpaca_reconcile w symbol n sell q = ([], Ok tt).
Proof.
  intros Hq. apply Qgtb_le in Hq.
  unfold alpaca_reconcile. simpl. by rewrite Hq.
Qed.

Lemma ccxt_reconcile_buy_flat w symbol amount q :
  (q < eps)%Q ->
  orders_of (trace (ccxt_reconcile w symbol amount buy q))
  = [MkOrder symbol SideBuy (Quantity amount)].
Proof.
  intros Hq. apply Qltb_lt in Hq.
  unfold ccxt_reconcile. simpl. rewrite Hq.
  run_step w.
Qed.

Lemma ccxt_reconcile_buy_long w symbol amount q :
  (eps <= q)%Q ->
  ccxt_reconcile w symbol amount buy q = ([], Ok tt).
Proof.
  intros Hq. apply Qltb_ge in Hq.
  unfold ccxt_reconcile. simpl. by rewrite Hq.
Qed.

Lemma ccxt_reconcile_sell_long w symbol amount q :
  (eps < q)%Q ->
  orders_of (trace (ccxt_reconcile w symbol amount sell q))
  = [MkOrder symbol SideSell (Quantity q)].
Proof.
  intros Hq. apply Qgtb_gt in Hq.
  unfold ccxt_reconcile. simpl. rewrite Hq.
  run_step w.
Qed.

Lemma ccxt_reconcile_sell_flat w symbol amount q :
  (q <= eps)%Q ->
  ccxt_reconcile w symbol amount sell q = ([], Ok tt).
Proof.
  intros Hq. apply Qgtb_le in Hq.
  unfold ccxt_reconcile. simpl. by rewrite Hq.
Qed.

(** ** Frames built by the two backends *)

Lemma df_empty_nonempty_column (df : DataFrame) name (col : column) :
  df !! name = Some col -> col <> [] -> df_empty df = false.
Proof.
  intros Hcol Hne. unfold df_empty.
  apply bool_decide_eq_false. intros Hall. by apply Hne, (Hall name).
Qed.

Lemma alpaca_frame_nil : df_empty (alpaca_frame []) = true.
Proof.
  unfold df_empty. apply bool_decide_eq_true. apply map_Forall_empty.
Qed.

Lemma alpaca_frame_close (barset : list Bar) :
  barset <> [] ->
  alpaca_frame barset !! "close"
  = Some (map (fun b => Some (bar_c b)) barset).
Proof.
  intros Hne. destruct barset as [|b bs]; [done|].
  unfold alpaca_frame.
  by repeat (rewrite lookup_insert_ne by done); rewrite lookup_insert_eq.
Qed.

Lemma ccxt_frame_close (ohlcv : list ohlcv_row) :
  ccxt_frame ohlcv !! "close" = Some (map row_c ohlcv).
Proof.
  unfold ccxt_frame.
  by repeat (rewrite lookup_insert_ne by done); rewrite lookup_insert_eq.
Qed.

Lemma ccxt_frame_nil : df_empty (ccxt_frame []) = true.
Proof.
  unfold df_empty, ccxt_frame. apply bool_decide_eq_true. simpl.
  repeat (apply map_Forall_insert_2; [done|]). apply map_Forall_empty.
Qed.

Lemma map_nonempty {A B} (f : A -> B) (l : list A) : l <> [] -> map f l <> [].
Proof. by destruct l. Qed.

(** ** One tick of each backend *)

Lemma run_alpaca_bot_fetch_error config w e :
  get_bars w = Raise e ->
  run_alpaca_bot config w
  = ([GetBars (alpaca_symbol (alpaca config))], Raise e).
Proof. intros H. unfold run_alpaca_bot. by rewrite H. Qed.

Lemma run_alpaca_bot_no_data config w :
  get_bars w = Ok [] ->
  run_alpaca_bot config w
  = ([GetBars (alpaca_symbol (alpaca config)); Print NoDataAlpaca], Ok tt).
Proof. intros H. unfold run_alpaca_bot. by rewrite H. Qed.

(** With data, the tick prints the signal, which is 'hold', and asks
    for the position. *)
Lemma run_alpaca_bot_data config w barset :
  get_bars w = Ok barset -> barset <> [] ->
  run_alpaca_bot config w
  = (let symbol := alpaca_symbol (alpaca config) in
     GetBars symbol :: Print (SignalFor symbol hold)
       :: trace (alpaca_current_qty w symbol),
     match outcome (alpaca_current_qty w (alpaca_symbol (alpaca config))) with
     | Ok _ => Ok tt
     | Raise e => Raise e
     end).
Proof.
  intros Hbars Hne. unfold run_alpaca_bot. rewrite Hbars.
  unfold mbind at 1. unfold Tick_bind, tbind, call.
  pose proof (alpaca_frame_close barset Hne) as Hclose.
  rewrite (df_empty_nonempty_column _ _ _ Hclose) by by apply map_nonempty.
  rewrite (sma_crossover_signals_close _ _ _ _ Hclose).
  rewrite sma_decision_hold by by apply map_nonempty.
  unfold mbind, Tick_bind, tbind, tlift, emit, trace, outcome.
  destruct (alpaca_current_qty w _) as [tr [q|e]]; simpl; [|done].
  by rewrite app_nil_r.
Qed.

Lemma run_ccxt_bot_no_exchange config w e :
  get_exchange w = Raise e ->
  run_ccxt_bot config w = ([GetExchange (exchange (ccxt config))], Raise e).
Proof. intros H. unfold run_ccxt_bot. by rewrite H. Qed.

Lemma run_ccxt_bot_fetch_error config w e :
  get_exchange w = Ok tt -> fetch_ohlcv w = Raise e ->
  run_ccxt_bot config w
  = ([GetExchange (exchange (ccxt config));
      FetchOhlcv (ccxt_symbol (ccxt config)) (time_interval config)],
     Raise e).
Proof. intros H1 H2. unfold run_ccxt_bot. by rewrite H1, H2. Qed.

Lemma run_ccxt_bot_no_data config w :
  get_exchange w = Ok tt -> fetch_ohlcv w = Ok [] ->
  run_ccxt_bot config w
  = ([GetExchange (exchange (ccxt config));
      FetchOhlcv (ccxt_symbol (ccxt config)) (time_interval config);
      Print NoDataExchange], Ok tt).
Proof. intros H1 H2. unfold run_ccxt_bot. by rewrite H1, H2. Qed.

Lemma run_ccxt_bot_data config w ohlcv :
  get_exchange w = Ok tt -> fetch_ohlcv w = Ok ohlcv -> ohlcv <> [] ->
  run_ccxt_bot config w
  = ([GetExchange (exchange (ccxt config));
      FetchOhlcv (ccxt_symbol (ccxt config)) (time_interval config);
      Print (SignalForOn (ccxt_symbol (ccxt config))
               (exchange (ccxt config)) hold);
      FetchBalance],
     match fetch_balance w with
     | Ok _ => Ok tt
     | Raise e => Raise e
     end).
Proof.
  intros Hex Hfetch Hne. unfold run_ccxt_bot. rewrite Hex, Hfetch.
  unfold mbind at 1 2. unfold Tick_bind, tbind, call.
  pose proof (ccxt_frame_close ohlcv) as Hclose.
  rewrite (df_empty_nonempty_column _ _ _ Hclose) by by apply map_nonempty.
  rewrite (sma_crossover_signals_close _ _ _ _ Hclose).
  rewrite sma_decision_hold by by apply map_nonempty.
  unfold mbind, Tick_bind, tbind, tlift, emit.
  by destruct (fetch_balance w).
Qed.

Lemma alpaca_current_qty_trace w symbol :
  trace (alpaca_current_qty w symbol) = [GetPosition symbol].
Proof.
  unfold alpaca_current_qty, try_except, call, trace.
  by destruct (get_position w) as [q|[]].
Qed.

Lemma run_alpaca_bot_no_order config w :
  orders_of (trace (run_alpaca_bot config w)) = [].
Proof.
  destruct (get_bars w) as [[|b bs]|e] eqn:Hbars.
  - by rewrite run_alpaca_bot_no_data.
  - rewrite (run_alpaca_bot_data config w (b :: bs)) by done.
    unfold trace at 1. simpl. by rewrite alpaca_current_qty_trace.
  - by rewrite (run_alpaca_bot_fetch_error config w e).
Qed.

Lemma run_ccxt_bot_no_order config w :
  orders_of (trace (run_ccxt_bot config w)) = [].
Proof.
  destruct (get_exchange w) as [[]|e] eqn:Hex.
  2:{ by rewrite (run_ccxt_bot_no_exchange config w e). }
  destruct (fetch_ohlcv w) as [[|r rs]|e] eqn:Hfetch.
  - by rewrite run_ccxt_bot_no_data.
  - by rewrite (run_ccxt_bot_data config w (r :: rs)).
  - by rewrite (run_ccxt_bot_fetch_error config w e).
Qed.

(** ** The polling loop *)

Lemma tbind_const_trace {A B} (m : Tick A) (b : B) :
  trace (m ;; mret b) = trace m.
Proof.
  unfold mbind, mret, Tick_bind, Tick_ret, tbind, tret, trace.
  destruct m as [tr [a|e]]; simpl; [|done]. by rewrite app_nil_r.
Qed.

Lemma tbind_const_outcome {A B} (m : Tick A) (b : B) :
  outcome (m ;; mret b)
  = match outcome m with Ok _ => Ok b | Raise e => Raise e end.
Proof.
  unfold mbind, mret, Tick_bind, Tick_ret, tbind, tret, outcome.
  by destruct m as [tr [a|e]].
Qed.

(** The handler of the loop turns a raised exception into a log line. *)
Lemma guarded_body_spec config broker w :
  guarded_body config broker w
  = match loop_body config broker w with
    | (tr, Ok b) => (tr, Ok b)
    | (tr, Raise e) => (tr ++ [Print (MainLoopError e)], Ok false)
    end.
Proof.
  unfold guarded_body, try_except.
  by destruct (loop_body config broker w) as [tr [b|e]].
Qed.

Lemma loop_body_known config broker w :
  broker = "alpaca" \/ broker = "ccxt" ->
  outcome (loop_body config broker w) <> Ok true.
Proof.
  intros [-> | ->]; unfold loop_body; simpl;
    rewrite tbind_const_outcome;
    by destruct (outcome _).
Qed.

Lemma loop_body_unknown config broker w :
  broker <> "alpaca" -> broker <> "ccxt" ->
  loop_body config broker w = ([Print (UnknownBroker broker)], Ok true).
Proof.
  intros Ha Hc. unfold loop_body.
  apply String.eqb_neq in Ha, Hc. by rewrite Ha, Hc.
Qed.

Lemma loop_body_no_order config broker w :
  orders_of (trace (loop_body config broker w)) = [].
Proof.
  unfold loop_body.
  destruct (String.eqb broker "alpaca").
  { rewrite tbind_const_trace. apply run_alpaca_bot_no_order. }
  destruct (String.eqb broker "ccxt").
  { rewrite tbind_const_trace. apply run_ccxt_bot_no_order. }
  done.
Qed.

Lemma guarded_body_no_order config broker w :
  orders_of (trace (guarded_body config broker w)) = [].
Proof.
  rewrite guarded_body_spec.
  pose proof (loop_body_no_order config broker w) as H.
  destruct (loop_body config broker w) as [tr [b|e]]; unfold trace in *;
    simpl in *; [done|].
  by rewrite orders_of_app, H.
Qed.

Lemma main_loop_no_order fuel config broker ws i :
  orders_of (fst (main_loop fuel config broker ws i)) = [].
Proof.
  revert i. induction fuel as [|fuel IH]; intros i; simpl; [done|].
  pose proof (guarded_body_no_order config broker (ws i)) as H.
  destruct (guarded_body config broker (ws i)) as [tr [[|]|e]];
    unfold trace in H; simpl in H; try done.
  specialize (IH (S i)).
  destruct (main_loop fuel config broker ws (S i)) as [tr' st]. simpl in *.
  by rewrite orders_of_app, H.
Qed.

(** * The claims *)

(** C1 (defect in the code). On the closes 1, 2, 3 with a short window
    of 1 and a long window of 2 both trailing averages at the latest bar
    are defined (3 and 5/2) and the short one is strictly larger, so the
    rule of the specification answers Buy; [sma_crossover_signals]
    answers 'hold', because the first row of the long rolling mean is NaN
    and the guard of line 24 looks at every row. *)
Theorem sma_crossover_signals_rising_closes :
  spec_trailing_average 1 [1; 2; 3]%Q = Some 3%Q /\
  spec_trailing_average 2 [1; 2; 3]%Q = Some (5 # 2)%Q /\
  spec_signal 1 2 [1; 2; 3]%Q = buy /\
  rolling_mean 1 (map Some [1; 2; 3]%Q) = [Some 1; Some 2; Some 3]%Q /\
  rolling_mean 2 (map Some [1; 2; 3]%Q) = [NaN; Some (3 # 2); Some (5 # 2)]%Q /\
  snd (sma_crossover_signals 1 2 (frame_of_closes [1; 2; 3]%Q)) = Ok hold.
Proof. repeat split; vm_compute; reflexivity. Qed.

(** C2. On every series with at least one row, and for all windows of
    at least 1, [sma_crossover_signals] answers 'hold': a window of 2 or
    more leaves NaN in the first rows of its rolling mean, which trips the
    guard, and two windows of 1 give the same column twice, which is the
    tie.  Hence no run of the loop, however long and whatever the backends
    answer, ever hands an order to a backend. *)
Theorem sma_crossover_signals_always_hold
    (df : DataFrame) (close : column) (sw lw : nat) :
  df !! "close" = Some close -> close <> [] ->
  (1 <= sw)%nat -> (1 <= lw)%nat ->
  snd (sma_crossover_signals sw lw df) = Ok hold /\
  (forall w i, (w = sw \/ w = lw) -> (i + 1 < w)%nat -> (i < length close)%nat ->
     rolling_mean w close !! i = Some NaN) /\
  ((2 <= sw)%nat \/ (2 <= lw)%nat ->
     isna_any (rolling_mean sw close) || isna_any (rolling_mean lw close)
     = true) /\
  (sw = 1%nat -> lw = 1%nat ->
     rolling_mean sw close = rolling_mean lw close) /\
  (forall fuel config ws, orders_of (fst (main fuel config ws)) = []).
Proof.
  intros Hclose Hne Hsw Hlw. repeat split.
  - by apply (sma_crossover_signals_hold df close).
  - intros w i _ Hw Hi. by apply rolling_mean_head_nan.
  - intros [H|H].
    + rewrite (isna_any_rolling_mean sw close) by (done || lia). done.
    + rewrite (isna_any_rolling_mean lw close) by (done || lia).
      apply orb_true_r.
  - by intros -> ->.
  - intros fuel config ws. apply main_loop_no_order.
Qed.

Lemma sma_crossover_signals_always_hold_witness :
  snd (sma_crossover_signals 5 20
         (frame_of_closes [100; 101; 102; 103; 104; 105]%Q)) = Ok hold.
Proof.
  apply (sma_crossover_signals_always_hold
           (frame_of_closes [100; 101; 102; 103; 104; 105]%Q)
           (map Some [100; 101; 102; 103; 104; 105]%Q) 5 20).
  - reflexivity.
  - discriminate.
  - lia.
  - lia.
Defined.

(** C3 (amended). The signal computation writes to the frame it is
    given: it assigns the columns 'SMA_short' and 'SMA_long', holding the
    two rolling means, and leaves every other column as it was; the
    signal it returns depends on the 'close' column and the two windows
    only. *)
Theorem sma_crossover_signals_frame
    (df : DataFrame) (close : column) (sw lw : nat) (name : string) :
  df !! "close" = Some close ->
  name <> "SMA_short" -> name <> "SMA_long" ->
  let df' := fst (sma_crossover_signals sw lw df) in
  df' !! name = df !! name /\
  df' !! "SMA_short" = Some (rolling_mean sw close) /\
  df' !! "SMA_long" = Some (rolling_mean lw close) /\
  snd (sma_crossover_signals sw lw df)
  = sma_decision (rolling_mean sw close) (rolling_mean lw close).
Proof.
  intros Hclose Hs Hl df'. subst df'.
  rewrite (sma_crossover_signals_close df close) by done. simpl.
  repeat split.
  - by rewrite !lookup_insert_ne.
  - rewrite lookup_insert_ne by done. apply lookup_insert_eq.
  - apply lookup_insert_eq.
Qed.

Lemma sma_crossover_signals_frame_witness :
  fst (sma_crossover_signals 1 1 (frame_of_closes [7]%Q)) !! "close"
  = frame_of_closes [7]%Q !! "close".
Proof.
  apply (sma_crossover_signals_frame
           (frame_of_closes [7]%Q) (map Some [7]%Q) 1 1 "close").
  - reflexivity.
  - discriminate.
  - discriminate.
Defined.

(** C3, as stated, fails: after the call the frame has a column it did
    not have before. *)
Lemma sma_crossover_signals_mutates_frame :
  frame_of_closes [7]%Q !! "SMA_short" = None /\
  fst (sma_crossover_signals 1 1 (frame_of_closes [7]%Q)) !! "SMA_short"
  = Some [Some 7%Q] /\
  fst (sma_crossover_signals 1 1 (frame_of_closes [7]%Q))
  <> frame_of_closes [7]%Q.
Proof.
  split; [reflexivity|]. split; [vm_compute; reflexivity|].
  intros H.
  apply (f_equal (fun m : DataFrame => m !! "SMA_short")) in H.
  vm_compute in H. discriminate.
Qed.

(** C4 (amended). On every series with at least one row and fewer rows
    than the long window, whatever the prices and whatever the short
    window, [sma_crossover_signals] answers 'hold'. *)
Theorem sma_crossover_signals_short_series
    (df : DataFrame) (close : column) (sw lw : nat) :
  df !! "close" = Some close -> close <> [] ->
  (length close < lw)%nat ->
  snd (sma_crossover_signals sw lw df) = Ok hold.
Proof.
  intros Hclose Hne _. by apply (sma_crossover_signals_hold df close).
Qed.

Lemma sma_crossover_signals_short_series_witness :
  snd (sma_crossover_signals 2 20 (frame_of_closes [10; 30; 20]%Q)) = Ok hold.
Proof.
  apply (sma_crossover_signals_short_series
           (frame_of_closes [10; 30; 20]%Q) (map Some [10; 30; 20]%Q) 2 20).
  - reflexivity.
  - discriminate.
  - simpl. lia.
Defined.

(** C4, as stated, fails on the series with no row: it is shorter than
    any long window, no rolling mean has a NaN row, and reading the
    latest row raises IndexError. *)
Lemma sma_crossover_signals_empty_series :
  (length (@nil Q) < 20)%nat /\
  snd (sma_crossover_signals 5 20 (frame_of_closes [])) = Raise IndexError /\
  snd (sma_crossover_signals 5 20 (frame_of_closes [])) <> Ok hold.
Proof.
  split; [simpl; lia|]. split; [vm_compute; reflexivity|].
  vm_compute. discriminate.
Qed.

(** C5 (amended). With a Buy signal and a held quantity of exactly 0,
    the equities step submits a market Buy sized by the configured
    notional and the crypto step a market Buy sized by the configured
    trade amount.  With a Buy signal and a strictly positive held
    quantity the equities step submits nothing; the crypto step submits
    nothing when the held quantity is at least [1e-8]. *)
Theorem reconcile_buy
    (aw : alpaca_world) (cw : ccxt_world) (symbol : string)
    (size q0 q qc : Q) :
  (q0 == 0)%Q -> (0 < q)%Q -> (eps <= qc)%Q ->
  orders_of (trace (alpaca_reconcile aw symbol size buy q0))
  = [MkOrder symbol SideBuy (Notional size)] /\
  orders_of (trace (ccxt_reconcile cw symbol size buy q0))
  = [MkOrder symbol SideBuy (Quantity size)] /\
  alpaca_reconcile aw symbol size buy q = ([], Ok tt) /\
  ccxt_reconcile cw symbol size buy qc = ([], Ok tt).
Proof.
  intros H0 Hq Hqc. repeat split.
  - by apply alpaca_reconcile_buy_flat.
  - apply ccxt_reconcile_buy_flat. rewrite H0. apply eps_pos.
  - by apply alpaca_reconcile_buy_long.
  - by apply ccxt_reconcile_buy_long.
Qed.

Lemma reconcile_buy_witness :
  alpaca_reconcile sample_alpaca_world "AAPL" 100 buy 5 = ([], Ok tt) /\
  ccxt_reconcile sample_ccxt_world "AAPL" 100 buy 5 = ([], Ok tt).
Proof.
  pose proof (reconcile_buy sample_alpaca_world sample_ccxt_world
                "AAPL" 100 0 5 5) as H.
  refine ((fun H' => conj (proj1 (proj2 (proj2 H')))
                          (proj2 (proj2 (proj2 H')))) (H _ _ _)).
  - reflexivity.
  - reflexivity.
  - discriminate.
Defined.

(** C5, as stated, fails on the crypto path: a Buy signal with a held
    quantity of dust, which is strictly positive, submits a Buy order. *)
Lemma ccxt_reconcile_buy_dust :
  (0 < dust)%Q /\
  ccxt_reconcile sample_ccxt_world "BTC/USDT" (1 # 1000) buy dust
  = ([Print (PlacingBuy "BTC/USDT" (1 # 1000));
      CreateMarketOrder (MkOrder "BTC/USDT" SideBuy (Quantity (1 # 1000)));
      Print (Receipt "filled")], Ok tt).
Proof. split; reflexivity. Qed.

(** C6 (amended). With a Sell signal and a held quantity [q] the
    equities step submits a market Sell of exactly [q] as soon as
    [q > 0], and the crypto step as soon as [q > 1e-8]; with a Sell signal
    and a held quantity of 0 neither step submits anything. *)
Theorem reconcile_sell
    (aw : alpaca_world) (cw : ccxt_world) (symbol : string)
    (size q0 q qc : Q) :
  (q0 == 0)%Q -> (0 < q)%Q -> (eps < qc)%Q ->
  orders_of (trace (alpaca_reconcile aw symbol size sell q))
  = [MkOrder symbol SideSell (Quantity q)] /\
  orders_of (trace (ccxt_reconcile cw symbol size sell qc))
  = [MkOrder symbol SideSell (Quantity qc)] /\
  alpaca_reconcile aw symbol size sell q0 = ([], Ok tt) /\
  ccxt_reconcile cw symbol size sell q0 = ([], Ok tt).
Proof.
  intros H0 Hq Hqc. repeat split.
  - by apply alpaca_reconcile_sell_long.
  - by apply ccxt_reconcile_sell_long.
  - apply alpaca_reconcile_sell_flat. rewrite H0. apply Qle_refl.
  - apply ccxt_reconcile_sell_flat. rewrite H0. apply Qlt_le_weak, eps_pos.
Qed.

Lemma reconcile_sell_witness :
  orders_of (trace (alpaca_reconcile sample_alpaca_world "AAPL" 100 sell 5))
  = [MkOrder "AAPL" SideSell (Quantity 5)].
Proof.
  refine (proj1 (reconcile_sell sample_alpaca_world sample_ccxt_world
                   "AAPL" 100 0 5 5 _ _ _)).
  - reflexivity.
  - reflexivity.
  - reflexivity.
Defined.

(** C6, as stated, fails on the crypto path: a Sell signal with a held
    quantity of dust, which is strictly positive, submits nothing. *)
Lemma ccxt_reconcile_sell_dust :
  (0 < dust)%Q /\
  ccxt_reconcile sample_ccxt_world "BTC/USDT" (1 # 1000) sell dust
  = ([], Ok tt).
Proof. split; reflexivity. Qed.

(** C7 (amended). For a held quantity [q] with [0 < q < 1e-8] the
    crypto step treats the position as flat: a Buy signal submits a Buy
    order and a Sell signal submits nothing.  The equities step compares
    with exactly 0: there a Buy signal submits nothing and a Sell signal
    sells [q]. *)
Theorem reconcile_dust
    (aw : alpaca_world) (cw : ccxt_world) (symbol : string) (size q : Q) :
  (0 < q)%Q -> (q < eps)%Q ->
  orders_of (trace (ccxt_reconcile cw symbol size buy q))
  = [MkOrder symbol SideBuy (Quantity size)] /\
  ccxt_reconcile cw symbol size sell q = ([], Ok tt) /\
  alpaca_reconcile aw symbol size buy q = ([], Ok tt) /\
  orders_of (trace (alpaca_reconcile aw symbol size sell q))
  = [MkOrder symbol SideSell (Quantity q)].
Proof.
  intros Hpos Hlt. repeat split.
  - by apply ccxt_reconcile_buy_flat.
  - by apply ccxt_reconcile_sell_flat, Qlt_le_weak.
  - by apply alpaca_reconcile_buy_long.
  - by apply alpaca_reconcile_sell_long.
Qed.

Lemma reconcile_dust_witness :
  orders_of (trace (ccxt_reconcile sample_ccxt_world "BTC/USDT" 1 buy dust))
  = [MkOrder "BTC/USDT" SideBuy (Quantity 1)].
Proof.
  refine (proj1 (reconcile_dust sample_alpaca_world sample_ccxt_world
                   "BTC/USDT" 1 dust _ _)).
  - reflexivity.
  - reflexivity.
Defined.

(** C7, as stated, fails on the equities path: with a held quantity of
    dust a Buy signal submits nothing and a Sell signal submits a Sell
    order, so the position is not treated as flat. *)
Lemma alpaca_reconcile_dust :
  (0 < dust)%Q /\ (dust < eps)%Q /\
  alpaca_reconcile sample_alpaca_world "AAPL" 100 buy dust = ([], Ok tt) /\
  alpaca_reconcile sample_alpaca_world "AAPL" 100 sell dust
  = ([Print (PlacingSell "AAPL" dust);
      SubmitOrder (MkOrder "AAPL" SideSell (Quantity dust));
      Print (Receipt "accepted")], Ok tt).
Proof. repeat split; reflexivity. Qed.

(** C8. When the position query raises the broker's APIError (no
    position exists), the tick goes on with a current quantity of 0: the
    query step returns 0 without raising, the reconciliation that follows
    is the one of a position of 0 for every signal, and the whole tick is
    the tick of a broker that reports a position of 0. *)
Theorem alpaca_no_position_is_zero
    (config : Config) (w : alpaca_world) (symbol : string) (size : Q)
    (signal : Signal) :
  get_position w = Raise APIError ->
  let w0 := {| get_bars := get_bars w;
               get_position := Ok 0%Q;
               submit_order := submit_order w |} in
  alpaca_current_qty w symbol = ([GetPosition symbol], Ok 0%Q) /\
  (current_qty ← alpaca_current_qty w symbol;
   alpaca_reconcile w symbol size signal current_qty)
  = (current_qty ← alpaca_current_qty w0 symbol;
     alpaca_reconcile w0 symbol size signal current_qty) /\
  run_alpaca_bot config w = run_alpaca_bot config w0 /\
  (forall e, outcome (run_alpaca_bot config w) = Raise e ->
             get_bars w = Raise e).
Proof.
  intros Hpos w0.
  assert (Hqty : forall s, alpaca_current_qty w s = ([GetPosition s], Ok 0%Q)).
  { intros s. unfold alpaca_current_qty, try_except, call. by rewrite Hpos. }
  assert (Hqty0 : forall s,
            alpaca_current_qty w0 s = ([GetPosition s], Ok 0%Q)) by done.
  repeat split.
  - apply Hqty.
  - by rewrite Hqty, Hqty0.
  - destruct (get_bars w) as [[|b bs]|e] eqn:Hbars.
    + by rewrite !run_alpaca_bot_no_data.
    + rewrite (run_alpaca_bot_data config w (b :: bs)) by done.
      rewrite (run_alpaca_bot_data config w0 (b :: bs)) by done.
      cbv zeta. by rewrite !Hqty, !Hqty0.
    + rewrite (run_alpaca_bot_fetch_error config w e) by done.
      by rewrite (run_alpaca_bot_fetch_error config w0 e).
  - intros e. destruct (get_bars w) as [[|b bs]|e'] eqn:Hbars.
    + by rewrite run_alpaca_bot_no_data.
    + rewrite (run_alpaca_bot_data config w (b :: bs)) by done.
      unfold outcome at 1. simpl. by rewrite Hqty.
    + rewrite (run_alpaca_bot_fetch_error config w e') by done.
      unfold outcome. simpl. congruence.
Qed.

Lemma alpaca_no_position_is_zero_witness :
  alpaca_current_qty sample_alpaca_world "AAPL"
  = ([GetPosition "AAPL"], Ok 0%Q).
Proof.
  refine (proj1 (alpaca_no_position_is_zero sample_config
                   sample_alpaca_world "AAPL" 100 buy _)).
  reflexivity.
Defined.

(** C9. A tick whose fetched series is empty is skipped: after the
    fetch the only thing that happens is the log line; no signal is
    printed, no position or balance is queried, no order is submitted,
    and the iteration of the loop ends without an exception. *)
Theorem empty_series_skips_tick
    (config : Config) (aw : alpaca_world) (cw : ccxt_world) :
  get_bars aw = Ok [] ->
  get_exchange cw = Ok tt -> fetch_ohlcv cw = Ok [] ->
  let w := {| alpaca_w := aw; ccxt_w := cw |} in
  run_alpaca_bot config aw
  = ([GetBars (alpaca_symbol (alpaca config)); Print NoDataAlpaca], Ok tt) /\
  run_ccxt_bot config cw
  = ([GetExchange (exchange (ccxt config));
      FetchOhlcv (ccxt_symbol (ccxt config)) (time_interval config);
      Print NoDataExchange], Ok tt) /\
  guarded_body config "alpaca" w
  = ([GetBars (alpaca_symbol (alpaca config)); Print NoDataAlpaca],
     Ok false) /\
  guarded_body config "ccxt" w
  = ([GetExchange (exchange (ccxt config));
      FetchOhlcv (ccxt_symbol (ccxt config)) (time_interval config);
      Print NoDataExchange], Ok false).
Proof.
  intros Hbars Hex Hfetch w. repeat split.
  - by apply run_alpaca_bot_no_data.
  - by apply run_ccxt_bot_no_data.
  - rewrite guarded_body_spec. unfold loop_body. simpl.
    by rewrite run_alpaca_bot_no_data.
  - rewrite guarded_body_spec. unfold loop_body. simpl.
    by rewrite run_ccxt_bot_no_data.
Qed.

Lemma empty_series_skips_tick_witness :
  run_alpaca_bot sample_config sample_alpaca_world
  = ([GetBars "AAPL"; Print NoDataAlpaca], Ok tt).
Proof.
  refine (proj1 (empty_series_skips_tick sample_config
                   sample_alpaca_world sample_ccxt_world _ _ _)).
  - reflexivity.
  - reflexivity.
  - reflexivity.
Defined.

Lemma main_loop_known_running fuel config broker ws i :
  broker = "alpaca" \/ broker = "ccxt" ->
  snd (main_loop fuel config broker ws i) = Running.
Proof.
  intros Hb. revert i. induction fuel as [|fuel IH]; intros i; [done|].
  simpl. rewrite guarded_body_spec.
  pose proof (loop_body_known config broker (ws i) Hb) as Hk.
  destruct (loop_body config broker (ws i)) as [tr [[|]|e]];
    unfold outcome in Hk; simpl in Hk; [done| |].
  - specialize (IH (S i)).
    by destruct (main_loop fuel config broker ws (S i)).
  - specialize (IH (S i)).
    by destruct (main_loop fuel config broker ws (S i)).
Qed.

Lemma guarded_body_known config broker w :
  broker = "alpaca" \/ broker = "ccxt" ->
  outcome (guarded_body config broker w) = Ok false.
Proof.
  intros Hb. rewrite guarded_body_spec.
  pose proof (loop_body_known config broker w Hb) as Hk.
  by destruct (loop_body config broker w) as [tr [[|]|e]].
Qed.

(** The loop over a complete configuration, where no key read can
    fail: an iteration never lets an exception out, a known backend
    keeps the loop running, and an unknown backend is the only way the
    loop stops. *)
Lemma main_loop_complete_config
    (config : Config) (ws : nat -> tick_world) :
  (forall broker w, exists tr b, guarded_body config broker w = (tr, Ok b)) /\
  (forall broker w tr e,
     loop_body config broker w = (tr, Raise e) ->
     guarded_body config broker w
     = (tr ++ [Print (MainLoopError e)], Ok false)) /\
  (forall broker fuel i,
     broker = "alpaca" \/ broker = "ccxt" ->
     main_loop (S fuel) config broker ws i
     = (trace (guarded_body config broker (ws i))
          ++ Sleep (loop_interval_sec config)
          :: fst (main_loop fuel config broker ws (S i)),
        Running)) /\
  (forall broker fuel i,
     broker <> "alpaca" -> broker <> "ccxt" ->
     main_loop (S fuel) config broker ws i
     = ([Print (UnknownBroker broker)], Stopped)) /\
  (forall broker fuel i,
     snd (main_loop fuel config broker ws i) <> Running ->
     snd (main_loop fuel config broker ws i) = Stopped /\
     broker <> "alpaca" /\ broker <> "ccxt").
Proof.
  split; [|split; [|split; [|split]]].
  - intros broker w. rewrite guarded_body_spec.
    destruct (loop_body config broker w) as [tr [b|e]]; eauto.
  - intros broker w tr e H. by rewrite guarded_body_spec, H.
  - intros broker fuel i Hb. simpl.
    pose proof (guarded_body_known config broker (ws i) Hb) as Hg.
    pose proof (main_loop_known_running fuel config broker ws (S i) Hb) as Hr.
    destruct (guarded_body config broker (ws i)) as [tr r].
    unfold outcome, trace in *. simpl in *. subst r.
    destruct (main_loop fuel config broker ws (S i)) as [tr' st].
    simpl in *. by subst st.
  - intros broker fuel i Ha Hc. simpl.
    by rewrite guarded_body_spec, loop_body_unknown.
  - intros broker fuel i Hst.
    destruct (String.eqb_spec broker "alpaca") as [Ha|Ha].
    { exfalso. apply Hst, main_loop_known_running. by left. }
    destruct (String.eqb_spec broker "ccxt") as [Hc|Hc].
    { exfalso. apply Hst, main_loop_known_running. by right. }
    split; [|done].
    destruct fuel as [|fuel]; [done|]. simpl.
    by rewrite guarded_body_spec, loop_body_unknown.
Qed.

(** ** Concrete runs *)

(** Sixty steadily rising closes with windows 5 and 20: the rule of the
    specification answers Buy, the code answers 'hold'. *)
Example rising_closes_hold :
  spec_signal 5 20 rising_closes = buy /\
  snd (sma_crossover_signals 5 20 (frame_of_closes rising_closes)) = Ok hold.
Proof. split; vm_compute; reflexivity. Qed.

(** Two iterations against a broker that times out: each failure is
    logged, each iteration is followed by the sleep, the loop goes on. *)
Example main_survives_timeouts :
  main 2 sample_config
    (fun _ => {| alpaca_w := failing_alpaca_world;
                 ccxt_w := sample_ccxt_world |})
  = ([GetBars "AAPL"; Print (MainLoopError (Exception "timeout")); Sleep 60;
      GetBars "AAPL"; Print (MainLoopError (Exception "timeout")); Sleep 60],
     Running).
Proof. vm_compute. reflexivity. Qed.

(** An unknown broker stops the loop in its first iteration, without a
    sleep. *)
Example main_unknown_broker :
  main 3
    {| broker := "Kraken"; short_window := 5; long_window := 20;
       loop_interval_sec := 60; time_interval := "15m";
       alpaca := alpaca sample_config; ccxt := ccxt sample_config |}
    (fun _ => {| alpaca_w := sample_alpaca_world;
                 ccxt_w := sample_ccxt_world |})
  = ([Print (UnknownBroker "kraken")], Stopped).
Proof. vm_compute. reflexivity. Qed.

(** * Further properties of the code *)

(** ** The signal function and its frame *)

(** X1. Without a 'close' column the signal function raises
    KeyError('close') at its first statement and leaves the frame as it
    was. *)
Theorem sma_crossover_signals_missing_close
    (df : DataFrame) (sw lw : nat) :
  df !! "close" = None ->
  sma_crossover_signals sw lw df = (df, Raise (KeyError "close")).
Proof.
  intros Hclose.
  unfold sma_crossover_signals, mbind, FrameM_bind, fbind, getitem.
  by rewrite Hclose.
Qed.

Lemma sma_crossover_signals_missing_close_witness :
  sma_crossover_signals 5 20 {[ "open" := [Some 1%Q] ]}
  = ({[ "open" := [Some 1%Q] ]}, Raise (KeyError "close")).
Proof.
  apply (sma_crossover_signals_missing_close {[ "open" := [Some 1%Q] ]} 5 20).
  reflexivity.
Defined.

Lemma sma_frame_overwrite (df : DataFrame) (a b a' b' : column) :
  <["SMA_long" := b']> (<["SMA_short" := a']>
    (<["SMA_long" := b]> (<["SMA_short" := a]> df)))
  = <["SMA_long" := b']> (<["SMA_short" := a']> df).
Proof.
  apply map_eq. intros k.
  destruct (decide (k = "SMA_long")) as [->|Hl].
  { by rewrite !lookup_insert_eq. }
  rewrite !(lookup_insert_ne _ "SMA_long") by done.
  destruct (decide (k = "SMA_short")) as [->|Hs].
  { by rewrite !lookup_insert_eq. }
  by repeat (rewrite lookup_insert_ne by done).
Qed.

(** X2. What a call answers, and the frame it leaves, do not depend on
    earlier calls on the same frame: a call on a frame that an earlier
    call (with any windows) has written to gives what the call on the
    original frame gives.  In particular calling twice with the same
    windows is the same as calling once. *)
Theorem sma_crossover_signals_repeat
    (df : DataFrame) (close : column) (sw lw sw' lw' : nat) :
  df !! "close" = Some close ->
  sma_crossover_signals sw' lw' (fst (sma_crossover_signals sw lw df))
  = sma_crossover_signals sw' lw' df.
Proof.
  intros Hclose.
  rewrite (sma_crossover_signals_close df close sw lw) by done. simpl.
  rewrite (sma_crossover_signals_close _ close sw' lw').
  2:{ by rewrite !lookup_insert_ne. }
  rewrite (sma_crossover_signals_close df close sw' lw') by done.
  by rewrite sma_frame_overwrite.
Qed.

Lemma sma_crossover_signals_repeat_witness :
  sma_crossover_signals 1 2
    (fst (sma_crossover_signals 5 20 (frame_of_closes [1; 2; 3]%Q)))
  = sma_crossover_signals 1 2 (frame_of_closes [1; 2; 3]%Q).
Proof.
  apply (sma_crossover_signals_repeat
           (frame_of_closes [1; 2; 3]%Q) (map Some [1; 2; 3]%Q) 5 20 1 2).
  reflexivity.
Defined.

(** ** Rolling means *)

Lemma sum_cells_Some (qs : list Q) :
  sum_cells (map Some qs) = Some (fold_right Qplus 0%Q qs).
Proof. induction qs as [|q qs IH]; [done|]. simpl. by rewrite IH. Qed.

(** From row [w - 1] on, a rolling mean over NaN-free closes is the
    mean of the [w] closes ending at that row. *)
Lemma rolling_mean_at_defined w (qs : list Q) i :
  (1 <= w)%nat -> (w <= i + 1)%nat -> (i < length qs)%nat ->
  rolling_mean_at w (map Some qs) i
  = Some (fold_right Qplus 0 (take w (drop (i + 1 - w) qs))
          / inject_Z (Z.of_nat w))%Q.
Proof.
  intros Hw Hi Hn. unfold rolling_mean_at.
  destruct (Nat.eqb_spec w 0) as [->|_]; [lia|].
  destruct (Nat.ltb_spec (i + 1) w) as [?|_]; [lia|]. simpl.
  unfold window_mean.
  change (@map Q (option Q) Some qs) with (Some <$> qs).
  rewrite <- fmap_drop, <- fmap_take.
  change (Some <$> ?l) with (map Some l).
  rewrite sum_cells_Some, length_map, length_take, length_drop.
  by replace (w `min` (length qs - (i + 1 - w)))%nat with w by lia.
Qed.

Lemma isna_any_true (xs : column) :
  isna_any xs = true <-> exists i, xs !! i = Some NaN.
Proof.
  split.
  - intros H. apply existsb_exists in H as ([q|] & Hin & Hx); [done|].
    apply list_elem_of_In, list_elem_of_lookup in Hin. done.
  - intros [i Hi]. by apply (isna_any_lookup xs i).
Qed.

(** X3. On closes without NaN and with at least one row, the NaN guard
    of line 24 fires for a rolling window [w] exactly when [w] is not 1:
    only a window of one row leaves no NaN in the rolling mean. *)
Theorem rolling_mean_guard (w : nat) (qs : list Q) :
  qs <> [] ->
  isna_any (rolling_mean w (map Some qs)) = true <-> w <> 1%nat.
Proof.
  intros Hne. split.
  - intros Hna ->. apply isna_any_true in Hna as [i Hi].
    assert (Hlt : (i < length (map Some qs))%nat).
    { rewrite <- (length_rolling_mean 1). by eapply lookup_lt_Some. }
    rewrite rolling_mean_lookup in Hi by done.
    rewrite length_map in Hlt.
    rewrite rolling_mean_at_defined in Hi by lia. done.
  - intros Hw. apply isna_any_rolling_mean; [|done].
    by destruct qs.
Qed.

Lemma rolling_mean_guard_witness :
  isna_any (rolling_mean 5 (map Some [1; 2; 3; 4; 5; 6]%Q)) = true.
Proof.
  apply (rolling_mean_guard 5 [1; 2; 3; 4; 5; 6]%Q).
  - discriminate.
  - discriminate.
Defined.

(** X4. On closes without NaN and with at least one row, the latest row
    of the rolling mean, the value lines 27-28 read, is the unweighted
    mean of the trailing [w] closes, and NaN when the window is 0 or
    longer than the series. *)
Theorem rolling_mean_latest (w : nat) (qs : list Q) :
  qs <> [] ->
  iloc_last (rolling_mean w (map Some qs)) = Ok (spec_trailing_average w qs).
Proof.
  intros Hne. unfold iloc_last.
  assert (Hlen : (0 < length qs)%nat).
  { destruct qs; [done|simpl; lia]. }
  rewrite last_lookup, length_rolling_mean, length_map.
  rewrite rolling_mean_lookup by (rewrite length_map; lia).
  unfold spec_trailing_average.
  destruct (Nat.eqb_spec w 0) as [->|Hw0]; [done|].
  destruct (Nat.ltb_spec (length qs) w) as [Hlt|Hge]; simpl.
  - unfold rolling_mean_at.
    destruct (Nat.eqb_spec w 0) as [?|_]; [done|].
    by destruct (Nat.ltb_spec (Nat.pred (length qs) + 1) w) as [_|?]; [|lia].
  - rewrite rolling_mean_at_defined by lia.
    replace (Nat.pred (length qs) + 1 - w)%nat with (length qs - w)%nat by lia.
    rewrite take_ge; [done|]. rewrite length_drop. lia.
Qed.

Lemma rolling_mean_latest_witness :
  iloc_last (rolling_mean 2 (map Some [1; 2; 3]%Q))
  = Ok (spec_trailing_average 2 [1; 2; 3]%Q).
Proof.
  apply (rolling_mean_latest 2 [1; 2; 3]%Q). discriminate.
Defined.

(** ** Shape of the frames *)

Lemma rectangular_insert n (df : DataFrame) name (col : column) :
  length col = n -> rectangular n df -> rectangular n (<[name := col]> df).
Proof. intros Hcol Hdf. by apply map_Forall_insert_2. Qed.

(** X5. Both backends build a frame whose columns all have one row per
    bar, and the signal function keeps the frame rectangular: the two
    columns it assigns have as many rows as the others. *)
Theorem frames_rectangular
    (barset : list Bar) (ohlcv : list ohlcv_row) (sw lw : nat) :
  rectangular (length barset) (alpaca_frame barset) /\
  rectangular (length ohlcv) (ccxt_frame ohlcv) /\
  (forall n df, rectangular n df ->
     rectangular n (fst (sma_crossover_signals sw lw df))).
Proof.
  split; [|split].
  - destruct barset as [|b bs]; [apply map_Forall_empty|].
    unfold alpaca_frame.
    repeat (apply rectangular_insert; [by rewrite length_map|]).
    apply map_Forall_empty.
  - unfold ccxt_frame.
    repeat (apply rectangular_insert; [by rewrite length_map|]).
    apply map_Forall_empty.
  - intros n df Hdf.
    destruct (df !! "close") as [close|] eqn:Hclose.
    + rewrite (sma_crossover_signals_close df close) by done. simpl.
      pose proof (Hdf _ _ Hclose) as Hn. simpl in Hn.
      by repeat (apply rectangular_insert;
                 [by rewrite length_rolling_mean|]).
    + by rewrite sma_crossover_signals_no_close.
Qed.

(** X6. The frame of a tick is empty exactly when the backend returned
    no bar, so the "No data" branch is taken for the empty bar set and for
    nothing else. *)
Theorem df_empty_iff (barset : list Bar) (ohlcv : list ohlcv_row) :
  (df_empty (alpaca_frame barset) = true <-> barset = []) /\
  (df_empty (ccxt_frame ohlcv) = true <-> ohlcv = []).
Proof.
  split; split.
  - intros He. destruct barset as [|b bs]; [done|].
    rewrite (df_empty_nonempty_column _ "close" _
               (alpaca_frame_close (b :: bs) ltac:(done))) in He; done.
  - intros ->. apply alpaca_frame_nil.
  - intros He. destruct ohlcv as [|r rs]; [done|].
    rewrite (df_empty_nonempty_column _ "close" _
               (ccxt_frame_close (r :: rs))) in He; done.
  - intros ->. apply ccxt_frame_nil.
Qed.

(** ** Reconciliation: what is submitted, and what is raised *)

(** X7. Whatever the signal, the held quantity and the answers of the
    backend, a reconciliation step hands at most one order to the
    backend; if it hands one, it is a Buy of the configured size on a
    Buy signal or a Sell of the whole held quantity on a Sell signal; on
    'hold' the step does nothing at all. *)
Theorem reconcile_at_most_one_order
    (aw : alpaca_world) (cw : ccxt_world) (symbol : string) (size q : Q)
    (signal : Signal) :
  let oa := orders_of (trace (alpaca_reconcile aw symbol size signal q)) in
  let oc := orders_of (trace (ccxt_reconcile cw symbol size signal q)) in
  (oa = [] \/
   (signal = buy /\ oa = [MkOrder symbol SideBuy (Notional size)]) \/
   (signal = sell /\ oa = [MkOrder symbol SideSell (Quantity q)])) /\
  (oc = [] \/
   (signal = buy /\ oc = [MkOrder symbol SideBuy (Quantity size)]) \/
   (signal = sell /\ oc = [MkOrder symbol SideSell (Quantity q)])) /\
  (signal = hold ->
   alpaca_reconcile aw symbol size signal q = ([], Ok tt) /\
   ccxt_reconcile cw symbol size signal q = ([], Ok tt)).
Proof.
  intros oa oc. subst oa oc. split; [|split].
  - unfold alpaca_reconcile. destruct signal; simpl.
    + destruct (Qeq_bool q 0); [|by left].
      right; left. split; [done|]. run_step aw.
    + destruct (Qgtb q 0); [|by left].
      right; right. split; [done|]. run_step aw.
    + by left.
  - unfold ccxt_reconcile. destruct signal; simpl.
    + destruct (Qltb q eps); [|by left].
      right; left. split; [done|]. run_step cw.
    + destruct (Qgtb q eps); [|by left].
      right; right. split; [done|]. run_step cw.
    + by left.
  - by intros ->.
Qed.

(** X8. The equities step never acts on a negative quantity (a short
    position): whatever the signal, nothing is printed and nothing is
    submitted. *)
Theorem alpaca_reconcile_short_position
    (w : alpaca_world) (symbol : string) (size q : Q) (signal : Signal) :
  (q < 0)%Q ->
  alpaca_reconcile w symbol size signal q = ([], Ok tt).
Proof.
  intros Hq. unfold alpaca_reconcile.
  assert (H0 : Qeq_bool q 0 = false).
  { apply not_true_iff_false. intros Heq. apply Qeq_bool_iff in Heq.
    rewrite Heq in Hq. by apply Qlt_irrefl in Hq. }
  assert (Hg : Qgtb q 0 = false) by by apply Qgtb_le, Qlt_le_weak.
  rewrite H0, Hg. by destruct signal.
Qed.

Lemma alpaca_reconcile_short_position_witness :
  alpaca_reconcile sample_alpaca_world "AAPL" 100 sell (-3) = ([], Ok tt).
Proof.
  apply (alpaca_reconcile_short_position sample_alpaca_world "AAPL" 100 (-3)).
  reflexivity.
Defined.

(** X9. On the crypto step a free balance of exactly [1e-8] is neither
    flat nor long: both tests are strict, so no signal places an order. *)
Theorem ccxt_reconcile_threshold
    (w : ccxt_world) (symbol : string) (size q : Q) (signal : Signal) :
  (q == eps)%Q ->
  ccxt_reconcile w symbol size signal q = ([], Ok tt).
Proof.
  intros Hq. unfold ccxt_reconcile.
  assert (Hl : Qltb q eps = false).
  { apply Qltb_ge. rewrite Hq. apply Qle_refl. }
  assert (Hg : Qgtb q eps = false).
  { apply Qgtb_le. rewrite Hq. apply Qle_refl. }
  rewrite Hl, Hg. by destruct signal.
Qed.

Lemma ccxt_reconcile_threshold_witness :
  ccxt_reconcile sample_ccxt_world "BTC/USDT" 1 buy (2 # 200000000)
  = ([], Ok tt).
Proof.
  apply (ccxt_reconcile_threshold sample_ccxt_world "BTC/USDT" 1
           (2 # 200000000)).
  reflexivity.
Defined.

(** X10. The crypto step never raises: a rejected order is caught
    inside the step and logged as "Error placing buy/sell order", and
    the step returns normally. *)
Theorem ccxt_reconcile_contains_order_errors
    (w : ccxt_world) (symbol : string) (size qb qs : Q) (e : exn) :
  (qb < eps)%Q -> (eps < qs)%Q ->
  (forall o, create_market_order w o = Raise e) ->
  ccxt_reconcile w symbol size buy qb
  = ([Print (PlacingBuy symbol size);
      CreateMarketOrder (MkOrder symbol SideBuy (Quantity size));
      Print (ErrorPlacingBuy e)], Ok tt) /\
  ccxt_reconcile w symbol size sell qs
  = ([Print (PlacingSell symbol qs);
      CreateMarketOrder (MkOrder symbol SideSell (Quantity qs));
      Print (ErrorPlacingSell e)], Ok tt) /\
  (forall (w' : ccxt_world) signal q,
     outcome (ccxt_reconcile w' symbol size signal q) = Ok tt).
Proof.
  intros Hb Hs Hw. apply Qltb_lt in Hb. apply Qgtb_gt in Hs.
  split; [|split].
  - unfold ccxt_reconcile. simpl. rewrite Hb.
    autounfold with tick. by rewrite Hw.
  - unfold ccxt_reconcile. simpl. rewrite Hs.
    autounfold with tick. by rewrite Hw.
  - intros w' signal q. unfold ccxt_reconcile.
    destruct signal; simpl.
    + destruct (Qltb q eps); [|done].
      autounfold with tick. by destruct (create_market_order w' _).
    + destruct (Qgtb q eps); [|done].
      autounfold with tick. by destruct (create_market_order w' _).
    + done.
Qed.

Lemma ccxt_reconcile_contains_order_errors_witness :
  ccxt_reconcile
    {| get_exchange := Ok tt; fetch_ohlcv := Ok []; fetch_balance := Ok ∅;
       create_market_order := fun _ => Raise (Exception "insufficient funds")
    |} "BTC/USDT" 1 buy 0
  = ([Print (PlacingBuy "BTC/USDT" 1);
      CreateMarketOrder (MkOrder "BTC/USDT" SideBuy (Quantity 1));
      Print (ErrorPlacingBuy (Exception "insufficient funds"))], Ok tt).
Proof.
  refine (proj1 (ccxt_reconcile_contains_order_errors _ "BTC/USDT" 1 0 5
                   (Exception "insufficient funds") _ _ _)).
  - reflexivity.
  - reflexivity.
  - intros o. reflexivity.
Defined.

(** X11. The equities step has no handler of its own: when the broker
    rejects the order the step raises that exception right after the
    submission, without printing a receipt; and the step raises only what
    a submission raised. *)
Theorem alpaca_reconcile_propagates_order_errors
    (w : alpaca_world) (symbol : string) (size q0 q : Q) (e : exn) :
  (q0 == 0)%Q -> (0 < q)%Q ->
  (forall o, submit_order w o = Raise e) ->
  alpaca_reconcile w symbol size buy q0
  = ([Print (PlacingBuy symbol size);
      SubmitOrder (MkOrder symbol SideBuy (Notional size))], Raise e) /\
  alpaca_reconcile w symbol size sell q
  = ([Print (PlacingSell symbol q);
      SubmitOrder (MkOrder symbol SideSell (Quantity q))], Raise e) /\
  (forall (w' : alpaca_world) signal q' e',
     outcome (alpaca_reconcile w' symbol size signal q') = Raise e' ->
     exists o, In o (orders_of (trace (alpaca_reconcile w' symbol size
                                         signal q')))
               /\ submit_order w' o = Raise e').
Proof.
  intros H0 Hq Hw. apply Qeq_bool_iff in H0. apply Qgtb_gt in Hq.
  split; [|split].
  - unfold alpaca_reconcile. simpl. rewrite H0.
    autounfold with tick. by rewrite Hw.
  - unfold alpaca_reconcile. simpl.
    destruct (Qeq_bool q 0); rewrite Hq; autounfold with tick;
      by rewrite Hw.
  - intros w' signal q' e'. unfold alpaca_reconcile.
    destruct signal; simpl.
    + destruct (Qeq_bool q' 0); [|done].
      autounfold with tick.
      destruct (submit_order w' _) as [r|e''] eqn:Hsub; [done|].
      unfold outcome, trace. simpl. intros [= ->].
      eexists. split; [by left|done].
    + destruct (Qgtb q' 0); [|done].
      autounfold with tick.
      destruct (submit_order w' _) as [r|e''] eqn:Hsub; [done|].
      unfold outcome, trace. simpl. intros [= ->].
      eexists. split; [by left|done].
    + done.
Qed.

Lemma alpaca_reconcile_propagates_order_errors_witness :
  alpaca_reconcile failing_alpaca_world "AAPL" 100 buy 0
  = ([Print (PlacingBuy "AAPL" 100);
      SubmitOrder (MkOrder "AAPL" SideBuy (Notional 100))],
     Raise (Exception "rejected")).
Proof.
  refine (proj1 (alpaca_reconcile_propagates_order_errors
                   failing_alpaca_world "AAPL" 100 0 5
                   (Exception "rejected") _ _ _)).
  - reflexivity.
  - reflexivity.
  - intros o. reflexivity.
Defined.

(** ** Position and balance queries *)

(** X12. Only the broker's APIError is read as "no position": any
    other exception raised by the position query leaves the query step
    unchanged, and a reported quantity is returned as it is. *)
Theorem alpaca_current_qty_other_errors
    (w : alpaca_world) (symbol : string) (e : exn) :
  e <> APIError ->
  (get_position w = Raise e ->
   alpaca_current_qty w symbol = ([GetPosition symbol], Raise e)) /\
  (forall q, get_position w = Ok q ->
   alpaca_current_qty w symbol = ([GetPosition symbol], Ok q)).
Proof.
  intros He. split.
  - intros Hpos. unfold alpaca_current_qty, try_except, call.
    rewrite Hpos. by destruct e.
  - intros q Hpos. unfold alpaca_current_qty, try_except, call.
    by rewrite Hpos.
Qed.

Lemma alpaca_current_qty_other_errors_witness :
  alpaca_current_qty
    {| get_bars := Ok []; get_position := Raise (Exception "connection reset");
       submit_order := fun _ => Ok "accepted" |} "AAPL"
  = ([GetPosition "AAPL"], Raise (Exception "connection reset")).
Proof.
  refine (proj1 (alpaca_current_qty_other_errors _ "AAPL"
                   (Exception "connection reset") _) _).
  - discriminate.
  - reflexivity.
Defined.

(** X13. The free balance read from the exchange's answer is 0 when the
    base currency has no entry and when its entry has no 'free' field;
    otherwise it is the 'free' field of that entry, whatever the other
    currencies hold. *)
Theorem base_free_of_lookup
    (balances : gmap string (gmap string Q)) (base : string) :
  (balances !! base = None -> base_free_of balances base = 0%Q) /\
  (forall acct, balances !! base = Some acct -> acct !! "free" = None ->
     base_free_of balances base = 0%Q) /\
  (forall acct q, balances !! base = Some acct -> acct !! "free" = Some q ->
     base_free_of balances base = q) /\
  (forall other acct, other <> base ->
     base_free_of (<[other := acct]> balances) base
     = base_free_of balances base).
Proof.
  unfold base_free_of. repeat split.
  - by intros ->.
  - intros acct -> Hf. simpl. by rewrite Hf.
  - intros acct q -> Hf. simpl. by rewrite Hf.
  - intros other acct Hne. by rewrite lookup_insert_ne.
Qed.

(** ** The base currency of a pair *)

Lemma split_head_no_slash (s : string) :
  contains_char "/" s = false -> split_head s = s.
Proof.
  induction s as [|c s IH]; [done|]. simpl.
  destruct (Ascii.eqb c "/"); [done|]. simpl.
  intros H. by rewrite IH.
Qed.

(** X14. [symbol.split('/')[0]]: the base currency is the part of the
    symbol before its first '/', it is the whole symbol when there is no
    '/', and it never contains a '/'. *)
Theorem split_head_spec (a b s : string) :
  contains_char "/" a = false ->
  split_head (String.append a (String "/" b)) = a /\
  split_head a = a /\
  contains_char "/" (split_head s) = false.
Proof.
  intros Ha. split; [|split].
  - induction a as [|c a IH]; simpl.
    + done.
    + simpl in Ha. destruct (Ascii.eqb c "/"); [done|].
      simpl in Ha. by rewrite IH.
  - by apply split_head_no_slash.
  - clear Ha. induction s as [|c s IH]; [done|]. simpl.
    destruct (Ascii.eqb c "/") eqn:Hc; [done|]. simpl.
    by rewrite Hc, IH.
Qed.

Lemma split_head_spec_witness :
  split_head "BTC/USDT" = "BTC".
Proof.
  refine (proj1 (split_head_spec "BTC" "USDT" "" _)). reflexivity.
Defined.

(** ** What a tick asks of its backend, and how it ends *)



(** ** The loop: broker names and sleeps *)

Lemma lower_ascii_idemp (c : ascii) :
  lower_ascii (lower_ascii c) = lower_ascii c.
Proof.
  destruct c as [[] [] [] [] [] [] [] []]; vm_compute; reflexivity.
Qed.

Lemma lower_idemp (s : string) : lower (lower s) = lower s.
Proof.
  induction s as [|c s IH]; [done|]. simpl.
  by rewrite lower_ascii_idemp, IH.
Qed.

Lemma lower_upper_ascii (c : ascii) :
  lower_ascii (upper_ascii c) = lower_ascii c.
Proof.
  destruct c as [[] [] [] [] [] [] [] []]; vm_compute; reflexivity.
Qed.

Lemma lower_recase (caps : list bool) (s : string) :
  lower (recase caps s) = lower s.
Proof.
  revert caps. induction s as [|c s IH]; intros caps; [done|].
  destruct caps as [|b caps]; [done|]. simpl.
  rewrite IH. by destruct b; rewrite ?lower_upper_ascii.
Qed.

(** X17. The backend is selected whatever the capitalisation of the
    configured name: when the configured broker is "alpaca" or "ccxt"
    with any of its letters written in upper case, the loop runs the
    ticks of that backend and keeps running, exactly as with the name in
    lower case. *)
Theorem main_selects_backend_any_case
    (fuel : nat) (config : Config) (ws : nat -> tick_world)
    (caps : list bool) (name : string) :
  name = "alpaca" \/ name = "ccxt" ->
  broker config = recase caps name ->
  lower (broker config) = name /\
  main fuel config ws = main_loop fuel config name ws 0 /\
  snd (main fuel config ws) = Running /\
  (forall w, loop_body config (lower (broker config)) w
             = loop_body config name w).
Proof.
  intros Hname Hb.
  assert (Hl : lower (broker config) = name).
  { rewrite Hb, lower_recase. destruct Hname as [-> | ->]; reflexivity. }
  unfold main. rewrite Hl. repeat split.
  by apply main_loop_known_running.
Qed.

Lemma main_selects_backend_any_case_witness :
  main 2 sample_config
    (fun _ => {| alpaca_w := sample_alpaca_world;
                 ccxt_w := sample_ccxt_world |})
  = main_loop 2 sample_config "alpaca"
      (fun _ => {| alpaca_w := sample_alpaca_world;
                   ccxt_w := sample_ccxt_world |}) 0.
Proof.
  refine (proj1 (proj2 (main_selects_backend_any_case 2 sample_config _
                          [true] "alpaca" _ _))).
  - left. reflexivity.
  - reflexivity.
Defined.






(** ** The configuration as loaded *)

Lemma getkey_bind_Some {A B} key (a : A) (k : A -> Tick B) :
  (getkey key (Some a) ≫= k) = k a.
Proof. unfold mbind, Tick_bind, tbind, getkey. by destruct (k a). Qed.

Lemma tbind_ext {A B} (m : Tick A) (k k' : A -> Tick B) :
  (forall a, k a = k' a) -> (m ≫= k) = (m ≫= k').
Proof.
  intros H. unfold mbind, Tick_bind, tbind.
  destruct m as [tr [a|e]]; [|done]. by rewrite H.
Qed.

Lemma getkey_bind_None {A B} key (k : A -> Tick B) :
  (getkey key None ≫= k) = ([], Raise (KeyError key)).
Proof. done. Qed.

Lemma complete_alpaca_Some a ac :
  complete_alpaca a = Some ac ->
  exists k s u,
    raw_alpaca_api_key a = Some k /\ raw_alpaca_api_secret a = Some s /\
    raw_alpaca_base_url a = Some u /\
    raw_alpaca_symbol a = Some (alpaca_symbol ac) /\
    raw_notional a = Some (notional ac).
Proof.
  unfold complete_alpaca. intros H.
  destruct (raw_alpaca_api_key a) as [k|]; [|done].
  destruct (raw_alpaca_api_secret a) as [s|]; [|done].
  destruct (raw_alpaca_base_url a) as [u|]; [|done].
  destruct (raw_alpaca_symbol a) as [sym|]; [|done].
  destruct (raw_notional a) as [n|]; [|done].
  simpl in H. injection H as <-. by exists k, s, u.
Qed.

Lemma complete_ccxt_Some c cc :
  complete_ccxt c = Some cc ->
  exists k s,
    raw_exchange c = Some (exchange cc) /\
    raw_ccxt_api_key c = Some k /\ raw_ccxt_api_secret c = Some s /\
    raw_ccxt_symbol c = Some (ccxt_symbol cc) /\
    raw_trade_amount c = Some (trade_amount cc).
Proof.
  unfold complete_ccxt. intros H.
  destruct (raw_exchange c) as [x|]; [|done].
  destruct (raw_ccxt_api_key c) as [k|]; [|done].
  destruct (raw_ccxt_api_secret c) as [s|]; [|done].
  destruct (raw_ccxt_symbol c) as [sym|]; [|done].
  destruct (raw_trade_amount c) as [n|]; [|done].
  simpl in H. injection H as <-. by exists k, s.
Qed.

(** An equities tick up to the data: the key reads of lines 53-58
    succeed and the bars are fetched. *)
Lemma run_alpaca_bot_raw_block raw a ac w :
  raw_alpaca raw = Some a -> complete_alpaca a = Some ac ->
  run_alpaca_bot_raw raw w
  = (barset ← call (GetBars (alpaca_symbol ac)) (get_bars w);
     let df := alpaca_frame barset in
     if df_empty df then emit (Print NoDataAlpaca)
     else
       short_window ← getkey "short_window" (raw_short_window raw);
       long_window ← getkey "long_window" (raw_long_window raw);
       let '(df, r) := sma_crossover_signals short_window long_window df in
       signal ← tlift r;
       emit (Print (SignalFor (alpaca_symbol ac) signal));;
       current_qty ← alpaca_current_qty w (alpaca_symbol ac);
       alpaca_reconcile w (alpaca_symbol ac) (notional ac) signal current_qty).
Proof.
  intros Ha Hac.
  apply complete_alpaca_Some in Hac as (k & s & u & Hk & Hs & Hu & Hsym & Hn).
  unfold run_alpaca_bot_raw.
  rewrite Ha, getkey_bind_Some, Hk, getkey_bind_Some, Hs, getkey_bind_Some.
  by rewrite Hu, getkey_bind_Some, Hsym, getkey_bind_Some, Hn,
    getkey_bind_Some.
Qed.

Lemma run_ccxt_bot_raw_block raw c cc tf w :
  raw_ccxt raw = Some c -> complete_ccxt c = Some cc ->
  raw_time_interval raw = Some tf ->
  run_ccxt_bot_raw raw w
  = (call (GetExchange (exchange cc)) (get_exchange w);;
     ohlcv ← call (FetchOhlcv (ccxt_symbol cc) tf) (fetch_ohlcv w);
     let df := ccxt_frame ohlcv in
     if df_empty df then emit (Print NoDataExchange)
     else
       short_window ← getkey "short_window" (raw_short_window raw);
       long_window ← getkey "long_window" (raw_long_window raw);
       let '(df, r) := sma_crossover_signals short_window long_window df in
       signal ← tlift r;
       emit (Print (SignalForOn (ccxt_symbol cc) (exchange cc) signal));;
       balances ← call FetchBalance (fetch_balance w);
       let base_symbol := split_head (ccxt_symbol cc) in
       let base_free := base_free_of balances base_symbol in
       ccxt_reconcile w (ccxt_symbol cc) (trade_amount cc) signal base_free).
Proof.
  intros Hc Hcc Htf.
  apply complete_ccxt_Some in Hcc as (k & s & Hx & Hk & Hs & Hsym & Hn).
  unfold run_ccxt_bot_raw.
  rewrite Hc, getkey_bind_Some, Hx, getkey_bind_Some, Hk, getkey_bind_Some.
  by rewrite Hs, getkey_bind_Some, Hsym, getkey_bind_Some, Hn,
    getkey_bind_Some, Htf, getkey_bind_Some.
Qed.

Lemma complete_config_Some raw config :
  complete_config raw = Some config ->
  raw_broker raw = Some (broker config) /\
  raw_short_window raw = Some (short_window config) /\
  raw_long_window raw = Some (long_window config) /\
  raw_loop_interval_sec raw = Some (loop_interval_sec config) /\
  raw_time_interval raw = Some (time_interval config) /\
  (exists a, raw_alpaca raw = Some a /\
             complete_alpaca a = Some (alpaca config)) /\
  (exists c, raw_ccxt raw = Some c /\
             complete_ccxt c = Some (ccxt config)).
Proof.
  unfold complete_config. intros H.
  destruct (raw_broker raw) as [b|]; [|done].
  destruct (raw_short_window raw) as [sw|]; [|done].
  destruct (raw_long_window raw) as [lw|]; [|done].
  destruct (raw_loop_interval_sec raw) as [secs|]; [|done].
  destruct (raw_time_interval raw) as [tf|]; [|done].
  destruct (raw_alpaca raw) as [a|]; [|done]. simpl in H.
  destruct (complete_alpaca a) as [ac|] eqn:Hac; [|done].
  destruct (raw_ccxt raw) as [c|]; [|done]. simpl in H.
  destruct (complete_ccxt c) as [cc|] eqn:Hcc; [|done].
  simpl in H. injection H as <-. simpl.
  do 5 (split; [done|]). split; eauto.
Qed.

Lemma run_alpaca_bot_raw_complete raw config w :
  complete_config raw = Some config ->
  run_alpaca_bot_raw raw w = run_alpaca_bot config w.
Proof.
  intros H.
  apply complete_config_Some in H
    as (_ & Hsw & Hlw & _ & _ & (a & Ha & Hac) & _).
  rewrite (run_alpaca_bot_raw_block raw a (alpaca config)) by done.
  unfold run_alpaca_bot. rewrite Hsw, Hlw.
  apply tbind_ext. intros barset.
  destruct (df_empty (alpaca_frame barset)); [done|].
  by rewrite !getkey_bind_Some.
Qed.

Lemma run_ccxt_bot_raw_complete raw config w :
  complete_config raw = Some config ->
  run_ccxt_bot_raw raw w = run_ccxt_bot config w.
Proof.
  intros H.
  apply complete_config_Some in H
    as (_ & Hsw & Hlw & _ & Htf & _ & (c & Hc & Hcc)).
  rewrite (run_ccxt_bot_raw_block raw c (ccxt config) (time_interval config))
    by done.
  unfold run_ccxt_bot. rewrite Hsw, Hlw.
  apply tbind_ext. intros _. apply tbind_ext. intros ohlcv.
  destruct (df_empty (ccxt_frame ohlcv)); [done|].
  by rewrite !getkey_bind_Some.
Qed.

Lemma guarded_body_raw_spec raw broker w :
  guarded_body_raw raw broker w
  = match loop_body_raw raw broker w with
    | (tr, Ok b) => (tr, Ok b)
    | (tr, Raise e) => (tr ++ [Print (MainLoopError e)], Ok false)
    end.
Proof.
  unfold guarded_body_raw, try_except.
  by destruct (loop_body_raw raw broker w) as [tr [b|e]].
Qed.

Lemma guarded_body_raw_known raw broker w :
  broker = "alpaca" \/ broker = "ccxt" ->
  outcome (guarded_body_raw raw broker w) = Ok false.
Proof.
  intros Hb. rewrite guarded_body_raw_spec.
  assert (Hk : outcome (loop_body_raw raw broker w) <> Ok true).
  { destruct Hb as [-> | ->]; unfold loop_body_raw; simpl;
      rewrite tbind_const_outcome; by destruct (outcome _). }
  by destruct (loop_body_raw raw broker w) as [tr [[|]|e]].
Qed.

Lemma loop_body_raw_complete raw config broker w :
  complete_config raw = Some config ->
  loop_body_raw raw broker w = loop_body config broker w.
Proof.
  intros H. unfold loop_body_raw, loop_body.
  by rewrite (run_alpaca_bot_raw_complete raw config),
    (run_ccxt_bot_raw_complete raw config).
Qed.

(** X19. When no key is missing, reading the keys where the code reads
    them changes nothing: each tick and the whole loop behave as they do on
    the complete configuration. *)
Theorem main_raw_complete
    (fuel : nat) (raw : RawConfig) (config : Config)
    (ws : nat -> tick_world) :
  complete_config raw = Some config ->
  (forall w, run_alpaca_bot_raw raw w = run_alpaca_bot config w) /\
  (forall w, run_ccxt_bot_raw raw w = run_ccxt_bot config w) /\
  main_raw fuel (Ok raw) ws = main fuel config ws.
Proof.
  intros H. split; [|split].
  - intros w. by apply run_alpaca_bot_raw_complete.
  - intros w. by apply run_ccxt_bot_raw_complete.
  - pose proof (complete_config_Some raw config H)
      as (Hb & _ & _ & Hsecs & _).
    unfold main_raw, main. rewrite Hb.
    generalize (lower (broker config)) as b. intros b.
    generalize 0%nat as i.
    induction fuel as [|fuel IH]; intros i; [done|]. simpl.
    unfold guarded_body_raw, guarded_body.
    rewrite (loop_body_raw_complete raw config) by done.
    by rewrite Hsecs, IH.
Qed.

Lemma main_raw_complete_witness :
  main_raw 2
    (Ok {| raw_broker := Some "Alpaca";
           raw_short_window := Some 5; raw_long_window := Some 20;
           raw_loop_interval_sec := Some 60;
           raw_time_interval := Some "15m";
           raw_alpaca := Some {| raw_alpaca_api_key := Some "key";
                                 raw_alpaca_api_secret := Some "secret";
                                 raw_alpaca_base_url := Some "url";
                                 raw_alpaca_symbol := Some "AAPL";
                                 raw_notional := Some 100%Q |};
           raw_ccxt := Some {| raw_exchange := Some "binance";
                               raw_ccxt_api_key := Some "key";
                               raw_ccxt_api_secret := Some "secret";
                               raw_ccxt_symbol := Some "BTC/USDT";
                               raw_trade_amount := Some (1 # 1000)%Q |} |})
    (fun _ => {| alpaca_w := sample_alpaca_world;
                 ccxt_w := sample_ccxt_world |})
  = main 2 sample_config
      (fun _ => {| alpaca_w := sample_alpaca_world;
                   ccxt_w := sample_ccxt_world |}).
Proof.
  refine (proj2 (proj2 (main_raw_complete 2 _ sample_config _ _))).
  reflexivity.
Defined.

(** X20. A missing 'loop_interval_sec' is noticed only at the first
    sleep, which is outside the [try]: with a known broker the first tick
    runs in full, then KeyError ends the process; no second tick runs.
    A missing 'broker', or a configuration file that cannot be loaded,
    ends the process before the loop. *)
Theorem main_raw_missing_interval
    (fuel : nat) (raw : RawConfig) (b : string)
    (ws : nat -> tick_world) :
  raw_broker raw = Some b ->
  lower b = "alpaca" \/ lower b = "ccxt" ->
  raw_loop_interval_sec raw = None ->
  main_raw (S fuel) (Ok raw) ws
  = (trace (guarded_body_raw raw (lower b) (ws 0%nat)),
     Crashed (KeyError "loop_interval_sec")) /\
  (forall raw', raw_broker raw' = None ->
     main_raw fuel (Ok raw') ws = ([], Crashed (KeyError "broker"))) /\
  (forall e, main_raw fuel (Raise e) ws = ([], Crashed e)).
Proof.
  intros Hb Hk Hsecs. split; [|split].
  - unfold main_raw. rewrite Hb. simpl.
    pose proof (guarded_body_raw_known raw (lower b) (ws 0%nat) Hk) as Hg.
    destruct (guarded_body_raw raw (lower b) (ws 0%nat)) as [tr r].
    unfold outcome, trace in *. simpl in *. subst r. by rewrite Hsecs.
  - intros raw' Hnone. unfold main_raw. by rewrite Hnone.
  - done.
Qed.

Lemma main_raw_missing_interval_witness :
  main_raw 3
    (Ok {| raw_broker := Some "alpaca";
           raw_short_window := Some 5; raw_long_window := Some 20;
           raw_loop_interval_sec := None;
           raw_time_interval := None;
           raw_alpaca := Some {| raw_alpaca_api_key := Some "key";
                                 raw_alpaca_api_secret := Some "secret";
                                 raw_alpaca_base_url := Some "url";
                                 raw_alpaca_symbol := Some "AAPL";
                                 raw_notional := Some 100%Q |};
           raw_ccxt := None |})
    (fun _ => {| alpaca_w := sample_alpaca_world;
                 ccxt_w := sample_ccxt_world |})
  = ([GetBars "AAPL"; Print NoDataAlpaca],
     Crashed (KeyError "loop_interval_sec")).
Proof.
  refine (proj1 (main_raw_missing_interval 2 _ "alpaca" _ _ _ _)).
  - reflexivity.
  - left. reflexivity.
  - reflexivity.
Defined.

(** The trace of [fuel] iterations that each log [e] and sleep. *)
Lemma main_loop_raw_failing raw broker ws secs e fuel i :
  (forall w, loop_body_raw raw broker w = ([], Raise e)) ->
  raw_loop_interval_sec raw = Some secs ->
  main_loop_raw fuel raw broker ws i
  = (concat (replicate fuel [Print (MainLoopError e); Sleep secs]),
     Running).
Proof.
  intros Hbody Hsecs. revert i.
  induction fuel as [|fuel IH]; intros i; [done|]. simpl.
  by rewrite guarded_body_raw_spec, Hbody, Hsecs, IH.
Qed.

(** X21. When the block of the selected backend is missing from the
    configuration, the loop never calls the backend: every iteration
    logs the KeyError and sleeps, for as long as the loop is observed. *)
Theorem main_raw_missing_backend_block
    (fuel : nat) (raw : RawConfig) (b : string) (secs : nat)
    (ws : nat -> tick_world) :
  raw_broker raw = Some b ->
  raw_loop_interval_sec raw = Some secs ->
  (lower b = "alpaca" -> raw_alpaca raw = None ->
   main_raw fuel (Ok raw) ws
   = (concat (replicate fuel
                [Print (MainLoopError (KeyError "alpaca")); Sleep secs]),
      Running)) /\
  (lower b = "ccxt" -> raw_ccxt raw = None ->
   main_raw fuel (Ok raw) ws
   = (concat (replicate fuel
                [Print (MainLoopError (KeyError "ccxt")); Sleep secs]),
      Running)).
Proof.
  intros Hb Hsecs. split.
  - intros Hl Ha. unfold main_raw. rewrite Hb, Hl.
    apply main_loop_raw_failing; [|done].
    intros w. unfold loop_body_raw, run_alpaca_bot_raw. simpl.
    by rewrite Ha.
  - intros Hl Hc. unfold main_raw. rewrite Hb, Hl.
    apply main_loop_raw_failing; [|done].
    intros w. unfold loop_body_raw, run_ccxt_bot_raw. simpl.
    by rewrite Hc.
Qed.

Lemma main_raw_missing_backend_block_witness :
  main_raw 2
    (Ok {| raw_broker := Some "CCXT";
           raw_short_window := Some 5; raw_long_window := Some 20;
           raw_loop_interval_sec := Some 30;
           raw_time_interval := Some "15m";
           raw_alpaca := None; raw_ccxt := None |})
    (fun _ => {| alpaca_w := sample_alpaca_world;
                 ccxt_w := sample_ccxt_world |})
  = ([Print (MainLoopError (KeyError "ccxt")); Sleep 30;
      Print (MainLoopError (KeyError "ccxt")); Sleep 30], Running).
Proof.
  refine (proj2 (main_raw_missing_backend_block 2 _ "CCXT" 30 _ _ _) _ _).
  - reflexivity.
  - reflexivity.
  - reflexivity.
  - reflexivity.
Defined.

(** X22. The windows are read only once bars have come back.  With a
    missing 'short_window' (or, when that is present, a missing
    'long_window') an equities tick on an empty bar set is skipped as
    usual, while a tick with bars raises the KeyError right after the
    fetch, before the position is queried. *)
Theorem run_alpaca_bot_raw_missing_window
    (raw : RawConfig) (a : RawAlpaca) (ac : AlpacaConfig)
    (w : alpaca_world) (bar : Bar) (bars : list Bar) :
  raw_alpaca raw = Some a -> complete_alpaca a = Some ac ->
  (get_bars w = Ok [] ->
   run_alpaca_bot_raw raw w
   = ([GetBars (alpaca_symbol ac); Print NoDataAlpaca], Ok tt)) /\
  (get_bars w = Ok (bar :: bars) -> raw_short_window raw = None ->
   run_alpaca_bot_raw raw w
   = ([GetBars (alpaca_symbol ac)], Raise (KeyError "short_window"))) /\
  (get_bars w = Ok (bar :: bars) ->
   raw_short_window raw <> None -> raw_long_window raw = None ->
   run_alpaca_bot_raw raw w
   = ([GetBars (alpaca_symbol ac)], Raise (KeyError "long_window"))).
Proof.
  intros Ha Hac.
  rewrite (run_alpaca_bot_raw_block raw a ac) by done.
  split; [|split].
  - intros Hbars. by rewrite Hbars.
  - intros Hbars Hsw. rewrite Hbars.
    unfold mbind at 1. unfold Tick_bind, tbind, call.
    rewrite (df_empty_nonempty_column _ "close" _
               (alpaca_frame_close (bar :: bars) ltac:(done))) by done.
    by rewrite Hsw.
  - intros Hbars Hsw Hlw. rewrite Hbars.
    unfold mbind at 1. unfold Tick_bind, tbind, call.
    rewrite (df_empty_nonempty_column _ "close" _
               (alpaca_frame_close (bar :: bars) ltac:(done))) by done.
    destruct (raw_short_window raw) as [sw|]; [|done].
    rewrite getkey_bind_Some. by rewrite Hlw.
Qed.

Lemma run_alpaca_bot_raw_missing_window_witness :
  run_alpaca_bot_raw
    {| raw_broker := Some "alpaca";
       raw_short_window := None; raw_long_window := Some 20;
       raw_loop_interval_sec := Some 60; raw_time_interval := None;
       raw_alpaca := Some {| raw_alpaca_api_key := Some "key";
                             raw_alpaca_api_secret := Some "secret";
                             raw_alpaca_base_url := Some "url";
                             raw_alpaca_symbol := Some "AAPL";
                             raw_notional := Some 100%Q |};
       raw_ccxt := None |}
    sample_alpaca_world
  = ([GetBars "AAPL"; Print NoDataAlpaca], Ok tt).
Proof.
  refine (proj1 (run_alpaca_bot_raw_missing_window _ _
                   {| alpaca_symbol := "AAPL"; notional := 100 |}
                   sample_alpaca_world
                   {| bar_t := 0; bar_o := 1; bar_h := 1; bar_l := 1;
                      bar_c := 1; bar_v := 0 |} [] _ _) _).
  - reflexivity.
  - reflexivity.
  - reflexivity.
Defined.

Lemma run_alpaca_bot_raw_incomplete_block raw a w :
  raw_alpaca raw = Some a -> complete_alpaca a = None ->
  trace (run_alpaca_bot_raw raw w) = [].
Proof.
  intros Ha Hac. unfold run_alpaca_bot_raw, complete_alpaca in *.
  rewrite Ha, getkey_bind_Some.
  destruct (raw_alpaca_api_key a); [rewrite getkey_bind_Some|done].
  destruct (raw_alpaca_api_secret a); [rewrite getkey_bind_Some|done].
  destruct (raw_alpaca_base_url a); [rewrite getkey_bind_Some|done].
  destruct (raw_alpaca_symbol a); [rewrite getkey_bind_Some|done].
  destruct (raw_notional a); [|done]. done.
Qed.

Lemma run_ccxt_bot_raw_incomplete_block raw c w :
  raw_ccxt raw = Some c -> complete_ccxt c = None ->
  trace (run_ccxt_bot_raw raw w) = [].
Proof.
  intros Hc Hcc. unfold run_ccxt_bot_raw, complete_ccxt in *.
  rewrite Hc, getkey_bind_Some.
  destruct (raw_exchange c); [rewrite getkey_bind_Some|done].
  destruct (raw_ccxt_api_key c); [rewrite getkey_bind_Some|done].
  destruct (raw_ccxt_api_secret c); [rewrite getkey_bind_Some|done].
  destruct (raw_ccxt_symbol c); [rewrite getkey_bind_Some|done].
  destruct (raw_trade_amount c); [|done]. done.
Qed.

Lemma run_alpaca_bot_raw_no_order raw w :
  orders_of (trace (run_alpaca_bot_raw raw w)) = [].
Proof.
  destruct (raw_alpaca raw) as [a|] eqn:Ha.
  2:{ unfold run_alpaca_bot_raw. by rewrite Ha. }
  destruct (complete_alpaca a) as [ac|] eqn:Hac.
  2:{ by rewrite (run_alpaca_bot_raw_incomplete_block raw a). }
  rewrite (run_alpaca_bot_raw_block raw a ac) by done.
  destruct (get_bars w) as [[|b bs]|e] eqn:Hbars; [done| |done].
  unfold mbind at 1. unfold Tick_bind, tbind, call.
  pose proof (alpaca_frame_close (b :: bs) ltac:(done)) as Hclose.
  rewrite (df_empty_nonempty_column _ _ _ Hclose) by done.
  destruct (raw_short_window raw) as [sw|]; [|done].
  rewrite getkey_bind_Some.
  destruct (raw_long_window raw) as [lw|]; [|done].
  rewrite getkey_bind_Some.
  rewrite (sma_crossover_signals_close _ _ _ _ Hclose).
  rewrite sma_decision_hold by done.
  unfold mbind, Tick_bind, tbind, tlift, emit, trace.
  pose proof (alpaca_current_qty_trace w (alpaca_symbol ac)) as Htr.
  destruct (alpaca_current_qty w _) as [tr [q|e]]; unfold trace in Htr;
    simpl in *; by subst tr.
Qed.

Lemma run_ccxt_bot_raw_no_order raw w :
  orders_of (trace (run_ccxt_bot_raw raw w)) = [].
Proof.
  destruct (raw_ccxt raw) as [c|] eqn:Hc.
  2:{ unfold run_ccxt_bot_raw. by rewrite Hc. }
  destruct (complete_ccxt c) as [cc|] eqn:Hcc.
  2:{ by rewrite (run_ccxt_bot_raw_incomplete_block raw c). }
  destruct (raw_time_interval raw) as [tf|] eqn:Htf.
  2:{ apply complete_ccxt_Some in Hcc as (k & s & Hx & Hk & Hs & Hsym & Hn).
      unfold run_ccxt_bot_raw.
      rewrite Hc, getkey_bind_Some, Hx, getkey_bind_Some, Hk,
        getkey_bind_Some, Hs, getkey_bind_Some, Hsym, getkey_bind_Some,
        Hn, getkey_bind_Some, Htf.
      done. }
  rewrite (run_ccxt_bot_raw_block raw c cc tf) by done.
  destruct (get_exchange w) as [[]|e] eqn:Hex; [|done].
  destruct (fetch_ohlcv w) as [[|r rs]|e] eqn:Hfetch; [done| |done].
  unfold mbind at 1 2. unfold Tick_bind, tbind, call.
  pose proof (ccxt_frame_close (r :: rs)) as Hclose.
  rewrite (df_empty_nonempty_column _ _ _ Hclose) by done.
  destruct (raw_short_window raw) as [sw|]; [|done].
  rewrite getkey_bind_Some.
  destruct (raw_long_window raw) as [lw|]; [|done].
  rewrite getkey_bind_Some.
  rewrite (sma_crossover_signals_close _ _ _ _ Hclose).
  rewrite sma_decision_hold by done.
  unfold mbind, Tick_bind, tbind, tlift, emit, call, trace.
  by destruct (fetch_balance w).
Qed.

(** X23. Whatever keys are missing from the configuration, whatever the
    backends answer and however long the loop runs, no order is ever
    handed to a backend. *)
Theorem main_raw_no_order
    (fuel : nat) (loaded : result RawConfig) (ws : nat -> tick_world) :
  orders_of (fst (main_raw fuel loaded ws)) = [].
Proof.
  unfold main_raw. destruct loaded as [raw|e]; [|done].
  destruct (raw_broker raw) as [b|]; [|done].
  generalize (lower b) as broker. intros broker.
  generalize 0%nat as i.
  induction fuel as [|fuel IH]; intros i; [done|]. simpl.
  rewrite guarded_body_raw_spec.
  assert (Hbody : orders_of (trace (loop_body_raw raw broker (ws i))) = []).
  { unfold loop_body_raw.
    destruct (String.eqb broker "alpaca").
    { rewrite tbind_const_trace. apply run_alpaca_bot_raw_no_order. }
    destruct (String.eqb broker "ccxt").
    { rewrite tbind_const_trace. apply run_ccxt_bot_raw_no_order. }
    done. }
  destruct (loop_body_raw raw broker (ws i)) as [tr [[|]|e]];
    unfold trace in Hbody; simpl in *; [done| |].
  - destruct (raw_loop_interval_sec raw) as [secs|]; [|done].
    specialize (IH (S i)).
    destruct (main_loop_raw fuel raw broker ws (S i)) as [tr' st].
    simpl in *. by rewrite orders_of_app, Hbody.
  - destruct (raw_loop_interval_sec raw) as [secs|].
    + specialize (IH (S i)).
      destruct (main_loop_raw fuel raw broker ws (S i)) as [tr' st].
      simpl in *. by rewrite !orders_of_app, Hbody.
    + simpl. by rewrite orders_of_app, Hbody.
Qed.

(** ** The loop with its key reads *)




